(** * VOS container directory

    A shallow embedding of [src/vos/vos_container.c]: the record-lifecycle
    callbacks registered for the container-index tree class ([vct_ops]),
    the container operations [vos_co_create], [vos_co_open] and
    [vos_co_destroy], and the container-UUID iterator.

    Conventions.
    - An [int] return code is a [Z]; [0] is success and errors are the
      negated [DER_*] constants.
    - A persistent-memory id ([umem_id_t], [TMMID]) is an [N]; [0] is the
      null id.  A pointer into persistent memory is the id it was obtained
      from, so that two pointers alias exactly when they are equal.
    - A C function that can hit a failed [D_ASSERT], or dereference an id
      that holds no object, has result type [outcome]: it either returns
      to its caller or the process stops.
    - The persistent heap carries a log of the allocator, transaction and
      collaborator calls made against it, in program order. *)

From Stdlib Require Import ZArith List Lia Bool.
From Stdlib.Strings Require Import Byte.
From stdpp Require Import base gmap list option sorting.

Open Scope Z_scope.

(** ** Outcomes of a call *)

Inductive fault : Type :=
| AssertionFailure   (* a D_ASSERT did not hold: the process aborts *)
| InvalidPointer.    (* an id that holds no object of the expected type was dereferenced *)

Inductive outcome (A : Type) : Type :=
| Returned (a : A)
| Crashed (f : fault).
Arguments Returned {A} a.
Arguments Crashed {A} f.

#[global] Instance outcome_ret : MRet outcome := fun A a => Returned a.
#[global] Instance outcome_bind : MBind outcome := fun A B k m =>
  match m with
  | Returned a => k a
  | Crashed f => Crashed f
  end.

Definition D_ASSERT (cond : bool) : outcome unit :=
  if cond then Returned tt else Crashed AssertionFailure.

(** ** Bytes, UUIDs and I/O vectors *)

#[global] Instance byte_eq_dec : EqDecision byte := Byte.byte_eq_dec.
#[global] Instance byte_countable : Countable byte :=
  inj_countable Byte.to_N Byte.of_N Byte.of_to_N.

(** [uuid_t] is [unsigned char[16]]; [struct daos_uuid] wraps one. *)
Abbreviation uuid_t := (list byte) (only parsing).
Definition sizeof_uuid : Z := 16.

Definition uuid_copy (src : uuid_t) : uuid_t := take 16%nat src.
Definition uuid_clear : uuid_t := replicate 16%nat x00.

Record daos_iov_t (A : Type) : Type := mk_iov {
  iov_buf : A;
  iov_buf_len : Z;
  iov_len : Z
}.
Arguments mk_iov {A} _ _ _.
Arguments iov_buf {A} _.
Arguments iov_buf_len {A} _.
Arguments iov_len {A} _.

Definition daos_iov_set {A : Type} (buf : A) (size : Z) : daos_iov_t A :=
  mk_iov buf size size.

(** ** Persistent memory *)

Abbreviation umem_id_t := N (only parsing).
Definition UMMID_NULL : umem_id_t := 0%N.
Definition TMMID_IS_NULL (id : umem_id_t) : bool := (id =? 0)%N.

(** [struct vos_object_index]: the root of the object-index tree, created
    in place by [vos_oi_create]; only its class word is kept. *)
Record vos_object_index : Type := mk_oi { obtable : Z }.

(** [struct vos_container]: the durable container record. *)
Record vos_container : Type := mk_container {
  vc_id : uuid_t;
  vc_info : Z;
  vc_obtable : umem_id_t
}.

Inductive umem_obj : Type :=
| ObjContainer (c : vos_container)
| ObjIndex (oi : vos_object_index).

Inductive event : Type :=
| EvAlloc (id : umem_id_t)
| EvFree (id : umem_id_t)
| EvOiCreate (id : umem_id_t) (rc : Z)
| EvOiDestroy (id : umem_id_t) (rc : Z)
| EvTreeLookup (hkey : list byte)
| EvTreeUpdate (hkey : list byte)
| EvTreeDelete (hkey : list byte)
| EvTxBegin
| EvTxAbort (cause : Z)
| EvTxCommit.

#[global] Instance event_eq_dec : EqDecision event.
Proof. solve_decision. Defined.

Record umem_instance : Type := mk_umm {
  umm_heap : gmap N umem_obj;
  umm_avail : nat;
  umm_log : list event
}.

Definition umm_emit (umm : umem_instance) (e : event) : umem_instance :=
  mk_umm (umm_heap umm) (umm_avail umm) (umm_log umm ++ [e]).

Definition umem_store (umm : umem_instance) (id : umem_id_t) (o : umem_obj)
  : umem_instance :=
  mk_umm (<[id := o]> (umm_heap umm)) (umm_avail umm) (umm_log umm).

Definition umem_fresh (h : gmap N umem_obj) : umem_id_t :=
  N.succ (map_fold (fun k _ m => N.max k m) 0%N h).

(** Modelled from the spec: the durable allocator ([daos/mem.h], not part
    of this source file), "alloc(size) -> address | OutOfMemory,
    free(address)".  [umm_avail] counts the objects the pool can still
    hold; a zeroed object is placed at an id not in use. *)
Definition umem_znew (umm : umem_instance) (zeroed : umem_obj)
  : umem_id_t * umem_instance :=
  match umm_avail umm with
  | O => (UMMID_NULL, umm)
  | S n =>
      let id := umem_fresh (umm_heap umm) in
      (id, mk_umm (<[id := zeroed]> (umm_heap umm)) n (umm_log umm ++ [EvAlloc id]))
  end.

Definition umem_free (umm : umem_instance) (id : umem_id_t) : umem_instance :=
  mk_umm (delete id (umm_heap umm)) (S (umm_avail umm)) (umm_log umm ++ [EvFree id]).

Definition umem_id2ptr (umm : umem_instance) (id : umem_id_t) : N := id.

Definition umem_container (umm : umem_instance) (ptr : N) : outcome vos_container :=
  match umm_heap umm !! ptr with
  | Some (ObjContainer c) => Returned c
  | _ => Crashed InvalidPointer
  end.

Definition umem_index (umm : umem_instance) (ptr : N) : outcome vos_object_index :=
  match umm_heap umm !! ptr with
  | Some (ObjIndex oi) => Returned oi
  | _ => Crashed InvalidPointer
  end.

Definition zeroed_container : vos_container := mk_container (replicate 16%nat x00) 0 UMMID_NULL.
Definition zeroed_index : vos_object_index := mk_oi 0.

(** ** Tree records and the view buffer *)

Record btr_record : Type := mk_rec {
  rec_mmid : umem_id_t;
  rec_hkey : list byte
}.

Record btr_instance : Type := mk_tins { ti_umm : umem_instance }.

(** [struct vc_val_buf]: two pointers, the container record and the pool. *)
Record vc_val_buf : Type := mk_val_buf {
  vc_co : N;
  vc_vpool : N
}.
Definition sizeof_ptr : Z := 8.
Definition sizeof_vc_val_buf : Z := 2 * sizeof_ptr.

(** ** Constants and collaborators declared outside this file

    The error numbers ([daos_errno.h], [errno.h]), the abort-cause
    translation ([umem_tx_errno], [daos/mem.h]), the object-index
    initializer and finalizer ([vos_obj.h]) and the in-place tree open
    ([daos/btree.h]) are parameters of the development. *)
Class vos_env : Type := {
  DER_NO_HDL : Z;
  DER_INVAL : Z;
  DER_EXIST : Z;
  DER_NONEXIST : Z;
  DER_NOSPACE : Z;
  DER_NOMEM : Z;
  DER_BUSY : Z;
  ENOMEM : Z;
  EFAULT : Z;
  DER_positive :
    0 < DER_NO_HDL /\ 0 < DER_INVAL /\ 0 < DER_EXIST /\ 0 < DER_NONEXIST /\
    0 < DER_NOSPACE /\ 0 < DER_NOMEM /\ 0 < DER_BUSY;
  umem_tx_errno : Z -> Z;
  vos_oi_create : N -> vos_object_index -> Z * vos_object_index;
  vos_oi_destroy : N -> vos_object_index -> Z * vos_object_index;
  dbtree_open_inplace : vos_object_index -> Z
}.

Section Callbacks.
Context `{env : vos_env}.

(** ** The record-lifecycle callbacks ([vct_ops]) *)

Definition vc_hkey_size (tins : btr_instance) : Z := sizeof_uuid.

Definition vc_hkey_gen (tins : btr_instance) (key_iov : daos_iov_t (list byte))
  : outcome (list byte) :=
  D_ASSERT (iov_len key_iov =? sizeof_uuid);;
  Returned (take (Z.to_nat (iov_len key_iov)) (iov_buf key_iov)).

Definition vc_rec_free (tins : btr_instance) (rec : btr_record)
  : outcome (Z * btr_instance) :=
  let umm := ti_umm tins in
  let vc_cid := rec_mmid rec in
  if TMMID_IS_NULL vc_cid then Returned (- DER_NONEXIST, tins)
  else
    vc_rec ← umem_container umm (umem_id2ptr umm vc_cid);
    let umm :=
      if negb (TMMID_IS_NULL (vc_obtable vc_rec))
      then umem_free umm (vc_obtable vc_rec)
      else umm in
    let umm := umem_free umm vc_cid in
    Returned (0, mk_tins umm).

Definition vc_rec_alloc (tins : btr_instance) (key_iov : daos_iov_t (list byte))
    (val_iov : daos_iov_t vc_val_buf) (rec : btr_record)
  : outcome (Z * btr_instance * daos_iov_t vc_val_buf * btr_record) :=
  D_ASSERT (iov_len key_iov =? sizeof_uuid);;
  let u_key := iov_buf key_iov in
  let val_buf := iov_buf val_iov in
  let '(vc_cid, umm) := umem_znew (ti_umm tins) (ObjContainer zeroed_container) in
  if TMMID_IS_NULL vc_cid then Returned (- DER_NOMEM, tins, val_iov, rec)
  else
    vc_rec ← umem_container umm (umem_id2ptr umm vc_cid);
    let vc_rec := mk_container (uuid_copy u_key) (vc_info vc_rec) (vc_obtable vc_rec) in
    let umm := umem_store umm vc_cid (ObjContainer vc_rec) in
    let val_iov :=
      mk_iov (mk_val_buf (umem_id2ptr umm vc_cid) (vc_vpool val_buf))
             (iov_buf_len val_iov) (iov_len val_iov) in
    let '(oi_id, umm) := umem_znew umm (ObjIndex zeroed_index) in
    let vc_rec := mk_container (vc_id vc_rec) (vc_info vc_rec) oi_id in
    let umm := umem_store umm vc_cid (ObjContainer vc_rec) in
    '(rc, umm, rec) ←
      (if TMMID_IS_NULL (vc_obtable vc_rec) then Returned (- DER_NOMEM, umm, rec)
       else
         vc_oi ← umem_index umm (umem_id2ptr umm (vc_obtable vc_rec));
         let '(rc, vc_oi) := vos_oi_create (vc_vpool val_buf) vc_oi in
         let umm := umm_emit (umem_store umm (vc_obtable vc_rec) (ObjIndex vc_oi))
                             (EvOiCreate (vc_obtable vc_rec) rc) in
         if negb (rc =? 0) then Returned (rc, umm, rec)
         else Returned (rc, umm, mk_rec vc_cid (rec_hkey rec)));
    (* exit: *)
    if negb (rc =? 0) then
      '(_, tins) ← vc_rec_free (mk_tins umm) rec;
      Returned (rc, tins, val_iov, rec)
    else Returned (rc, mk_tins umm, val_iov, rec).

Definition vc_rec_fetch (tins : btr_instance) (rec : btr_record)
    (key_iov : daos_iov_t (list byte)) (val_iov : daos_iov_t vc_val_buf)
  : Z * daos_iov_t vc_val_buf :=
  let vc_rec := umem_id2ptr (ti_umm tins) (rec_mmid rec) in
  let val_buf := mk_val_buf vc_rec (vc_vpool (iov_buf val_iov)) in
  (0, mk_iov val_buf (iov_buf_len val_iov) sizeof_vc_val_buf).

Definition vc_rec_update (tins : btr_instance) (rec : btr_record)
    (key : daos_iov_t (list byte)) (val : daos_iov_t vc_val_buf) : Z := 0.

End Callbacks.

(** ** The ordered tree engine

    Modelled from the spec: the ordered key-value tree ([daos/btree.h],
    not part of this source file), "lookup(key) -> value | NotFound,
    insert(key, value-or-plugin-args) -> ok, delete(key) -> ok | NotFound,
    iterate(anchor?) -> cursor", keyed by the digest the plugin's
    key-digest operation produces.  The records of a tree are kept in
    ascending digest order (byte-wise comparison); the engine calls the
    callbacks of the tree class on insert, delete and fetch. *)

Record btr_ops_t : Type := mk_ops {
  to_hkey_size : btr_instance -> Z;
  to_hkey_gen : btr_instance -> daos_iov_t (list byte) -> outcome (list byte);
  to_rec_alloc : btr_instance -> daos_iov_t (list byte) -> daos_iov_t vc_val_buf ->
                 btr_record ->
                 outcome (Z * btr_instance * daos_iov_t vc_val_buf * btr_record);
  to_rec_free : btr_instance -> btr_record -> outcome (Z * btr_instance);
  to_rec_fetch : btr_instance -> btr_record -> daos_iov_t (list byte) ->
                 daos_iov_t vc_val_buf -> Z * daos_iov_t vc_val_buf;
  to_rec_update : btr_instance -> btr_record -> daos_iov_t (list byte) ->
                  daos_iov_t vc_val_buf -> Z
}.

Record btr_context : Type := mk_tcx {
  tc_tins : btr_instance;
  tc_root : list btr_record
}.

Definition tcx_emit (tcx : btr_context) (e : event) : btr_context :=
  mk_tcx (mk_tins (umm_emit (ti_umm (tc_tins tcx)) e)) (tc_root tcx).

Fixpoint hkey_cmp (a b : list byte) : comparison :=
  match a, b with
  | [], [] => Eq
  | [], _ :: _ => Lt
  | _ :: _, [] => Gt
  | x :: a', y :: b' =>
      match (Byte.to_N x ?= Byte.to_N y)%N with
      | Eq => hkey_cmp a' b'
      | c => c
      end
  end.

Definition hkey_lt (a b : list byte) : Prop := hkey_cmp a b = Lt.
Definition hkey_le (a b : list byte) : Prop := hkey_cmp a b <> Gt.

#[global] Instance hkey_le_dec a b : Decision (hkey_le a b).
Proof. unfold hkey_le. solve_decision. Defined.

(** The records of a tree are in strictly ascending digest order. *)
Definition btr_sorted (root : list btr_record) : Prop :=
  StronglySorted (fun r1 r2 => hkey_lt (rec_hkey r1) (rec_hkey r2)) root.

Definition btr_find (hkey : list byte) (root : list btr_record) : option btr_record :=
  snd <$> list_find (fun r => rec_hkey r = hkey) root.

Fixpoint btr_insert (rec : btr_record) (root : list btr_record) : list btr_record :=
  match root with
  | [] => [rec]
  | r :: rest =>
      match hkey_cmp (rec_hkey rec) (rec_hkey r) with
      | Gt => r :: btr_insert rec rest
      | _ => rec :: root
      end
  end.

Definition btr_remove (hkey : list byte) (root : list btr_record) : list btr_record :=
  filter (fun r => rec_hkey r <> hkey) root.

Inductive dbtree_probe_opc_t : Type := BTR_PROBE_FIRST | BTR_PROBE_GE.

(** The position of a tree iterator: an index into the ordered records. *)
Inductive btr_cursor : Type := CursorNone | CursorAt (idx : nat).

Section Tree.
Context `{env : vos_env}.
Variable ops : btr_ops_t.

Definition dbtree_lookup (tcx : btr_context) (key : daos_iov_t (list byte))
    (val : daos_iov_t vc_val_buf)
  : outcome (Z * btr_context * daos_iov_t vc_val_buf) :=
  hkey ← to_hkey_gen ops (tc_tins tcx) key;
  let tcx := tcx_emit tcx (EvTreeLookup hkey) in
  match btr_find hkey (tc_root tcx) with
  | None => Returned (- DER_NONEXIST, tcx, val)
  | Some rec =>
      let '(rc, val) := to_rec_fetch ops (tc_tins tcx) rec key val in
      Returned (rc, tcx, val)
  end.

Definition dbtree_update (tcx : btr_context) (key : daos_iov_t (list byte))
    (val : daos_iov_t vc_val_buf)
  : outcome (Z * btr_context * daos_iov_t vc_val_buf) :=
  hkey ← to_hkey_gen ops (tc_tins tcx) key;
  let tcx := tcx_emit tcx (EvTreeUpdate hkey) in
  match btr_find hkey (tc_root tcx) with
  | Some rec => Returned (to_rec_update ops (tc_tins tcx) rec key val, tcx, val)
  | None =>
      '(rc, tins, val, rec) ←
        to_rec_alloc ops (tc_tins tcx) key val (mk_rec UMMID_NULL hkey);
      if negb (rc =? 0) then Returned (rc, mk_tcx tins (tc_root tcx), val)
      else Returned (0, mk_tcx tins (btr_insert rec (tc_root tcx)), val)
  end.

Definition dbtree_delete (tcx : btr_context) (key : daos_iov_t (list byte))
  : outcome (Z * btr_context) :=
  hkey ← to_hkey_gen ops (tc_tins tcx) key;
  let tcx := tcx_emit tcx (EvTreeDelete hkey) in
  match btr_find hkey (tc_root tcx) with
  | None => Returned (- DER_NONEXIST, tcx)
  | Some rec =>
      '(_, tins) ← to_rec_free ops (tc_tins tcx) rec;
      Returned (0, mk_tcx tins (btr_remove hkey (tc_root tcx)))
  end.

Definition dbtree_iter_probe (tcx : btr_context) (ih : option btr_cursor)
    (opc : dbtree_probe_opc_t) (key : option (daos_iov_t (list byte)))
    (anchor : option (list byte)) : Z * option btr_cursor :=
  match ih with
  | None => (- DER_NO_HDL, ih)
  | Some _ =>
      match opc with
      | BTR_PROBE_FIRST =>
          match tc_root tcx with
          | [] => (- DER_NONEXIST, Some CursorNone)
          | _ :: _ => (0, Some (CursorAt 0))
          end
      | BTR_PROBE_GE =>
          match anchor with
          | None => (- DER_INVAL, Some CursorNone)
          | Some a =>
              match list_find (fun r => hkey_le a (rec_hkey r)) (tc_root tcx) with
              | Some (i, _) => (0, Some (CursorAt i))
              | None => (- DER_NONEXIST, Some CursorNone)
              end
          end
      end
  end.

Definition dbtree_iter_fetch (tcx : btr_context) (ih : option btr_cursor)
    (key : daos_iov_t (list byte)) (val : daos_iov_t vc_val_buf)
    (anchor : option (list byte))
  : Z * daos_iov_t vc_val_buf * option (list byte) :=
  match ih with
  | None => (- DER_NO_HDL, val, anchor)
  | Some CursorNone => (- DER_NONEXIST, val, anchor)
  | Some (CursorAt i) =>
      match tc_root tcx !! i with
      | None => (- DER_NONEXIST, val, anchor)
      | Some rec =>
          let '(rc, val) := to_rec_fetch ops (tc_tins tcx) rec key val in
          (rc, val, Some (rec_hkey rec))
      end
  end.

End Tree.

(** ** Pools, the handle cache and the process state *)

Record vos_pool : Type := mk_pool {
  vp_umm : umem_instance;
  vp_cont_root : list btr_record
}.

(** [vpool->vp_cont_ith]: the open handle of the container-index tree,
    which lives in the pool's persistent memory. *)
Definition vp_cont_ith (vpool : vos_pool) : btr_context :=
  mk_tcx (mk_tins (vp_umm vpool)) (vp_cont_root vpool).

Definition pool_of_tcx (tcx : btr_context) : vos_pool :=
  mk_pool (ti_umm (tc_tins tcx)) (tc_root tcx).

Definition pool_emit (vpool : vos_pool) (e : event) : vos_pool :=
  mk_pool (umm_emit (vp_umm vpool) e) (vp_cont_root vpool).

(** [struct vc_hdl]: the in-memory open handle of a container. *)
Record vc_hdl : Type := mk_hdl {
  hdl_vc_id : uuid_t;
  hdl_vc_pool : N;
  hdl_vc_co : N;
  hdl_vc_obj_table : N;
  hdl_vc_ref : nat
}.

Record vos_state : Type := mk_state {
  st_pools : gmap N vos_pool;
  st_hhash : gmap (list byte) vc_hdl;
  st_dram : nat
}.

Definition vos_hdl2pool (st : vos_state) (poh : N) : option vos_pool :=
  st_pools st !! poh.

Definition st_set_pool (st : vos_state) (poh : N) (vpool : vos_pool) : vos_state :=
  mk_state (<[poh := vpool]> (st_pools st)) (st_hhash st) (st_dram st).

Definition st_set_hhash (st : vos_state) (hh : gmap (list byte) vc_hdl) : vos_state :=
  mk_state (st_pools st) hh (st_dram st).

Definition hdl_set_ref (h : vc_hdl) (n : nat) : vc_hdl :=
  mk_hdl (hdl_vc_id h) (hdl_vc_pool h) (hdl_vc_co h) (hdl_vc_obj_table h) n.

Section HandleCache.
Context `{env : vos_env}.

(** Modelled from the spec: the handle cache ([vos_hhash.h], not part of
    this source file), section 4.2.  A [struct vc_hdl *] is represented by
    the identifier under which the handle is registered, [None] being the
    null pointer.  "lookup(id) -> Handle | NotFound: returns a new
    reference (increments ref-count) to the matching handle if present." *)
Definition vos_co_lookup_handle (hh : gmap (list byte) vc_hdl) (ukey : uuid_t)
  : Z * option (list byte) * gmap (list byte) vc_hdl :=
  match hh !! ukey with
  | Some h => (0, Some ukey, <[ukey := hdl_set_ref h (S (hdl_vc_ref h))]> hh)
  | None => (- DER_NONEXIST, None, hh)
  end.

(** Modelled from the spec: "release(handle-ref): decrements the reference
    count; at zero, the handle becomes eligible for teardown but is not
    required to be torn down immediately". *)
Definition vos_co_putref_handle (hh : gmap (list byte) vc_hdl)
    (co_hdl : option (list byte)) : outcome (gmap (list byte) vc_hdl) :=
  match co_hdl with
  | None => Crashed InvalidPointer
  | Some k =>
      match hh !! k with
      | None => Crashed InvalidPointer
      | Some h => Returned (<[k := hdl_set_ref h (pred (hdl_vc_ref h))]> hh)
      end
  end.

(** Modelled from the spec: "insert(handle, id) -> Handle-ref |
    AlreadyExists: registers a newly constructed handle; fails if ... one
    already exists". *)
Definition vos_co_insert_handle (hh : gmap (list byte) vc_hdl) (co_hdl : vc_hdl)
    (ukey : uuid_t) : Z * gmap (list byte) vc_hdl * option (list byte) :=
  match hh !! ukey with
  | Some _ => (- DER_EXIST, hh, None)
  | None => (0, <[ukey := hdl_set_ref co_hdl 1]> hh, Some ukey)
  end.

Definition vos_co2hdl (co_hdl : option (list byte)) : option (list byte) := co_hdl.

End HandleCache.

(** ** Transactions

    Modelled from the spec: the transaction primitives of the durable
    allocator ([TX_BEGIN], [TX_ONABORT], [TX_END] and [pmemobj_tx_abort] of
    libpmemobj, not part of this source file), section 5: "begin -> body ->
    commit, with an abort path that discards all durable writes performed
    since begin".  The body reports the stage it left the transaction in;
    the local [rc] keeps the value it had when the body stopped. *)

Inductive tx_stage : Type :=
| TX_STAGE_WORK
| TX_STAGE_ONABORT (cause : Z).

Definition tx_rollback (snap cur : vos_pool) (cause : Z) : vos_pool :=
  mk_pool (mk_umm (umm_heap (vp_umm snap)) (umm_avail (vp_umm snap))
                  (umm_log (vp_umm cur) ++ [EvTxAbort cause]))
          (vp_cont_root snap).

Definition tx_run (vpool : vos_pool)
    (body : vos_pool -> outcome (tx_stage * Z * vos_pool))
    (onabort : Z -> Z) : outcome (Z * vos_pool) :=
  '(stage, rc, cur) ← body (pool_emit vpool EvTxBegin);
  match stage with
  | TX_STAGE_WORK => Returned (rc, pool_emit cur EvTxCommit)
  | TX_STAGE_ONABORT cause => Returned (onabort rc, tx_rollback vpool cur cause)
  end.

(** ** Container operations *)

Inductive vos_iter_type_t : Type :=
| VOS_ITER_NONE | VOS_ITER_COUUID | VOS_ITER_OBJ | VOS_ITER_DKEY | VOS_ITER_RECX.

#[global] Instance vos_iter_type_eq_dec : EqDecision vos_iter_type_t.
Proof. solve_decision. Defined.

(** [struct vos_co_iter]; [cot_hdl] is [None] for an invalid handle. *)
Record vos_co_iter : Type := mk_co_iter {
  it_type : vos_iter_type_t;
  cot_hdl : option btr_cursor;
  cot_pool : N
}.

Record vos_iter_entry_t : Type := mk_entry { ie_couuid : uuid_t }.

Section Container.
Context `{env : vos_env}.

Definition vct_ops : btr_ops_t :=
  mk_ops vc_hkey_size vc_hkey_gen vc_rec_alloc vc_rec_free vc_rec_fetch vc_rec_update.

Definition vos_co_tree_lookup (vpool : vos_pool) (ukey : uuid_t) (sbuf : vc_val_buf)
  : outcome (Z * vos_pool * vc_val_buf) :=
  let key := daos_iov_set ukey sizeof_uuid in
  let value := daos_iov_set sbuf sizeof_vc_val_buf in
  '(rc, tcx, value) ← dbtree_lookup vct_ops (vp_cont_ith vpool) key value;
  Returned (rc, pool_of_tcx tcx, iov_buf value).

Definition vos_co_create (st : vos_state) (poh : N) (co_uuid : uuid_t)
  : outcome (Z * vos_state) :=
  match vos_hdl2pool st poh with
  | None => Returned (- DER_INVAL, st)
  | Some vpool =>
      let ukey := uuid_copy co_uuid in
      let s_buf := mk_val_buf 0%N poh in
      '(rc, vpool, s_buf) ← vos_co_tree_lookup vpool ukey s_buf;
      if rc =? 0 then Returned (- DER_EXIST, st_set_pool st poh vpool)
      else
        '(rc, vpool) ←
          tx_run vpool
            (fun vpool =>
               let key := daos_iov_set ukey sizeof_uuid in
               let value := daos_iov_set s_buf sizeof_vc_val_buf in
               '(rc, tcx, _) ← dbtree_update vct_ops (vp_cont_ith vpool) key value;
               if negb (rc =? 0)
               then Returned (TX_STAGE_ONABORT ENOMEM, rc, pool_of_tcx tcx)
               else Returned (TX_STAGE_WORK, rc, pool_of_tcx tcx))
            umem_tx_errno;
        Returned (rc, st_set_pool st poh vpool)
  end.

(** [D_ALLOC_PTR]: a volatile allocation, failing when none is left. *)
Definition D_ALLOC_PTR (st : vos_state) : option vos_state :=
  match st_dram st with
  | O => None
  | S n => Some (mk_state (st_pools st) (st_hhash st) n)
  end.

Definition vos_co_uhash_free (st : vos_state) : vos_state :=
  mk_state (st_pools st) (st_hhash st) (S (st_dram st)).

Definition vos_co_open (st : vos_state) (poh : N) (co_uuid : uuid_t)
  : outcome (Z * vos_state * option (list byte)) :=
  match vos_hdl2pool st poh with
  | None => Returned (- DER_INVAL, st, None)
  | Some vpool =>
      let ukey := uuid_copy co_uuid in
      let '(rc, co_hdl, hh) := vos_co_lookup_handle (st_hhash st) ukey in
      let st := st_set_hhash st hh in
      if rc =? 0 then Returned (rc, st, vos_co2hdl co_hdl)
      else
        '(rc, vpool, s_buf) ← vos_co_tree_lookup vpool ukey (mk_val_buf 0%N 0%N);
        let st := st_set_pool st poh vpool in
        if negb (rc =? 0) then Returned (rc, st, None)
        else
          match D_ALLOC_PTR st with
          | None => Returned (- DER_NOSPACE, st, None)
          | Some st =>
              vc_rec ← umem_container (vp_umm vpool) (vc_co s_buf);
              let co_hdl :=
                mk_hdl (uuid_copy co_uuid) poh (vc_co s_buf)
                       (umem_id2ptr (vp_umm vpool) (vc_obtable vc_rec)) 0 in
              vc_oi ← umem_index (vp_umm vpool) (hdl_vc_obj_table co_hdl);
              let rc := dbtree_open_inplace vc_oi in
              if negb (rc =? 0) then Returned (rc, vos_co_uhash_free st, None)
              else
                let '(rc, hh, coh) := vos_co_insert_handle (st_hhash st) co_hdl ukey in
                if negb (rc =? 0) then Returned (rc, vos_co_uhash_free st, None)
                else Returned (rc, st_set_hhash st hh, coh)
          end
  end.

Definition vos_co_destroy (st : vos_state) (poh : N) (co_uuid : uuid_t)
  : outcome (Z * vos_state) :=
  let ukey := uuid_copy co_uuid in
  match vos_hdl2pool st poh with
  | None => Returned (- DER_INVAL, st)
  | Some vpool =>
      let '(rc, co_hdl, hh) := vos_co_lookup_handle (st_hhash st) ukey in
      let st := st_set_hhash st hh in
      if negb (rc =? - DER_NONEXIST) then
        hh ← vos_co_putref_handle hh co_hdl;
        Returned (- DER_BUSY, st_set_hhash st hh)
      else
        '(rc, vpool, s_buf) ← vos_co_tree_lookup vpool ukey (mk_val_buf 0%N 0%N);
        if negb (rc =? 0) then Returned (rc, st_set_pool st poh vpool)
        else
          let del_key := daos_iov_set ukey sizeof_uuid in
          '(rc, vpool) ←
            tx_run vpool
              (fun vpool =>
                 vc_rec ← umem_container (vp_umm vpool) (vc_co s_buf);
                 let oi_id := vc_obtable vc_rec in
                 vc_oi ← umem_index (vp_umm vpool) (umem_id2ptr (vp_umm vpool) oi_id);
                 let '(rc, vc_oi) := vos_oi_destroy poh vc_oi in
                 let vpool :=
                   mk_pool (umm_emit (umem_store (vp_umm vpool) oi_id (ObjIndex vc_oi))
                                     (EvOiDestroy oi_id rc))
                           (vp_cont_root vpool) in
                 if negb (rc =? 0)
                 then Returned (TX_STAGE_ONABORT EFAULT, rc, vpool)
                 else
                   '(rc, tcx) ← dbtree_delete vct_ops (vp_cont_ith vpool) del_key;
                   Returned (TX_STAGE_WORK, rc, pool_of_tcx tcx))
              umem_tx_errno;
          Returned (rc, st_set_pool st poh vpool)
  end.

(** ** The container-UUID iterator *)

Definition vos_co_iter_tree (st : vos_state) (co_iter : vos_co_iter)
  : outcome btr_context :=
  match st_pools st !! cot_pool co_iter with
  | Some vpool => Returned (vp_cont_ith vpool)
  | None => Crashed InvalidPointer
  end.

Definition vos_co_iter_fetch (st : vos_state) (co_iter : vos_co_iter)
    (it_entry : vos_iter_entry_t) (anchor : option (list byte))
  : outcome (Z * vos_iter_entry_t * option (list byte)) :=
  D_ASSERT (bool_decide (it_type co_iter = VOS_ITER_COUUID));;
  let key := daos_iov_set ([] : list byte) sizeof_uuid in
  let value := daos_iov_set (mk_val_buf 0%N 0%N) sizeof_vc_val_buf in
  let it_entry := mk_entry uuid_clear in
  tcx ← vos_co_iter_tree st co_iter;
  let '(rc, value, anchor) :=
    dbtree_iter_fetch vct_ops tcx (cot_hdl co_iter) key value anchor in
  if negb (rc =? 0) then Returned (rc, it_entry, anchor)
  else
    D_ASSERT (iov_len value =? sizeof_vc_val_buf);;
    vc_rec ← umem_container (ti_umm (tc_tins tcx)) (vc_co (iov_buf value));
    Returned (rc, mk_entry (uuid_copy (vc_id vc_rec)), anchor).

Definition vos_co_iter_probe (st : vos_state) (co_iter : vos_co_iter)
    (anchor : option (list byte)) : outcome (Z * vos_co_iter) :=
  D_ASSERT (bool_decide (it_type co_iter = VOS_ITER_COUUID));;
  let opc := match anchor with None => BTR_PROBE_FIRST | Some _ => BTR_PROBE_GE end in
  tcx ← vos_co_iter_tree st co_iter;
  let '(rc, ih) := dbtree_iter_probe tcx (cot_hdl co_iter) opc None anchor in
  Returned (rc, mk_co_iter (it_type co_iter) ih (cot_pool co_iter)).

End Container.

(** ** A concrete environment for the closed examples *)

(** Modelled from the spec: the translation of an abort cause
    ([umem_tx_errno], declared in [daos/mem.h], not part of this source
    file).  Section 5: the abort path "translates the abort cause into an
    error code"; section 7: the resulting error "wraps the underlying
    cause".  A cause that already is a negative DAOS error is kept; a
    positive [errno] becomes a DAOS error, [ENOMEM] (12) the out-of-space
    one. *)
Definition sample_tx_errno (err : Z) : Z :=
  if err <? 0 then err
  else if err =? 12 then -2007
  else -2003.

(** Modelled from the spec: the nested-index collaborator ([vos_obj.h], not
    part of this source file), section 6: "init(pool, address) -> ok |
    error, destroy(pool, index) -> ok | error".  The code to return is
    given; on success the class word of the index root is set or reset. *)
Definition sample_oi_create (rc : Z) (vpool : N) (oi : vos_object_index)
  : Z * vos_object_index :=
  if rc =? 0 then (0, mk_oi 1) else (rc, oi).

Definition sample_oi_destroy (rc : Z) (vpool : N) (oi : vos_object_index)
  : Z * vos_object_index :=
  if rc =? 0 then (0, mk_oi 0) else (rc, oi).

(** The error numbers are those of a [DER_ERR_BASE] of 2000. *)
Definition sample_env (create_rc destroy_rc : Z) : vos_env.
Proof.
  refine {| DER_NO_HDL := 2002; DER_INVAL := 2003; DER_EXIST := 2004;
            DER_NONEXIST := 2005; DER_NOSPACE := 2007; DER_NOMEM := 2009;
            DER_BUSY := 2012; ENOMEM := 12; EFAULT := 14;
            umem_tx_errno := sample_tx_errno;
            vos_oi_create := sample_oi_create create_rc;
            vos_oi_destroy := sample_oi_destroy destroy_rc;
            dbtree_open_inplace := fun _ => 0 |}.
  lia.
Defined.

Definition uuid_a : uuid_t :=
  [x0a; x01; x02; x03; x04; x05; x06; x07; x08; x09; x0a; x0b; x0c; x0d; x0e; x0f].
Definition uuid_b : uuid_t :=
  [x0b; x01; x02; x03; x04; x05; x06; x07; x08; x09; x0a; x0b; x0c; x0d; x0e; x0f].
Definition uuid_c : uuid_t :=
  [x0c; x01; x02; x03; x04; x05; x06; x07; x08; x09; x0a; x0b; x0c; x0d; x0e; x0f].

(** A pool holding containers [uuid_a] and [uuid_c], with room for four
    more objects. *)
Definition sample_heap : gmap N umem_obj :=
  <[1%N := ObjContainer (mk_container uuid_a 0 2%N)]>
  (<[2%N := ObjIndex (mk_oi 1)]>
  (<[3%N := ObjContainer (mk_container uuid_c 0 4%N)]>
  (<[4%N := ObjIndex (mk_oi 1)]> ∅))).

Definition sample_pool : vos_pool :=
  mk_pool (mk_umm sample_heap 4 []) [mk_rec 1%N uuid_a; mk_rec 3%N uuid_c].

Definition empty_pool (avail : nat) : vos_pool := mk_pool (mk_umm ∅ avail []) [].

Definition sample_hdl : vc_hdl := mk_hdl uuid_a 7%N 1%N 2%N 1.

Definition sample_state : vos_state :=
  mk_state (<[7%N := sample_pool]> ∅) ∅ 2.

Definition sample_state_open : vos_state :=
  mk_state (<[7%N := sample_pool]> ∅) (<[uuid_a := sample_hdl]> ∅) 2.

Definition fresh_state (avail : nat) : vos_state :=
  mk_state (<[7%N := empty_pool avail]> ∅) ∅ 2.

Definition sample_iter (cur : btr_cursor) : vos_co_iter :=
  mk_co_iter VOS_ITER_COUUID (Some cur) 7%N.

Definition short_key : daos_iov_t (list byte) := daos_iov_set [x01; x02; x03] 3.

(** ** Further operations of the file *)

Section MoreTree.
Context `{env : vos_env}.
Variable ops : btr_ops_t.

(** Modelled from the spec: the tree iterator ([daos/btree.h], not part of
    this source file), section 4.4: "next(iterator): advances the cursor by
    one position; moving past the last entry transitions to Exhausted". *)
Definition dbtree_iter_next (tcx : btr_context) (ih : option btr_cursor)
  : Z * option btr_cursor :=
  match ih with
  | None => (- DER_NO_HDL, ih)
  | Some CursorNone => (- DER_NONEXIST, ih)
  | Some (CursorAt i) =>
      match tc_root tcx !! S i with
      | Some _ => (0, Some (CursorAt (S i)))
      | None => (- DER_NONEXIST, Some CursorNone)
      end
  end.

(** Modelled from the spec: "delete(iterator): removes the entry at the
    current position"; the engine releases the record through the free
    callback of the tree class, as on [dbtree_delete]. *)
Definition dbtree_iter_delete (tcx : btr_context) (ih : option btr_cursor)
  : outcome (Z * btr_context) :=
  match ih with
  | None => Returned (- DER_NO_HDL, tcx)
  | Some CursorNone => Returned (- DER_NONEXIST, tcx)
  | Some (CursorAt i) =>
      match tc_root tcx !! i with
      | None => Returned (- DER_NONEXIST, tcx)
      | Some rec =>
          '(_, tins) ← to_rec_free ops (tc_tins tcx) rec;
          Returned (0, mk_tcx tins (delete i (tc_root tcx)))
      end
  end.

End MoreTree.

(** After a delete the tree iterator has no position: it has to be probed
    again. *)
Definition btr_iter_reset (ih : option btr_cursor) : option btr_cursor :=
  match ih with
  | None => None
  | Some _ => Some CursorNone
  end.

Section MoreContainer.
Context `{env : vos_env}.

(** Modelled from the spec: handle resolution ([vos_hdl2co], declared in
    [vos_internal.h], not part of this source file), section 6: "given a
    container handle, resolve to" the open handle.  A container handle is
    the identifier under which the open handle is registered in the
    handle cache; a handle that is not registered resolves to null. *)
Definition vos_hdl2co (st : vos_state) (coh : option (list byte)) : option vc_hdl :=
  match coh with
  | None => None
  | Some k => st_hhash st !! k
  end.

(** [vos_co_query] copies [vc_info] out of the record the handle points to. *)
Definition vos_co_query (st : vos_state) (coh : option (list byte))
  : outcome (Z * option Z) :=
  match vos_hdl2co st coh with
  | None => Returned (- DER_INVAL, None)
  | Some co_hdl =>
      match st_pools st !! hdl_vc_pool co_hdl with
      | None => Crashed InvalidPointer
      | Some vpool =>
          vc_rec ← umem_container (vp_umm vpool) (hdl_vc_co co_hdl);
          Returned (0, Some (vc_info vc_rec))
      end
  end.

Definition vos_co_iter_next (st : vos_state) (co_iter : vos_co_iter)
  : outcome (Z * vos_co_iter) :=
  D_ASSERT (bool_decide (it_type co_iter = VOS_ITER_COUUID));;
  tcx ← vos_co_iter_tree st co_iter;
  let '(rc, ih) := dbtree_iter_next tcx (cot_hdl co_iter) in
  Returned (rc, mk_co_iter (it_type co_iter) ih (cot_pool co_iter)).

Definition vos_co_iter_delete (st : vos_state) (co_iter : vos_co_iter)
  : outcome (Z * vos_state * vos_co_iter) :=
  D_ASSERT (bool_decide (it_type co_iter = VOS_ITER_COUUID));;
  match st_pools st !! cot_pool co_iter with
  | None => Crashed InvalidPointer
  | Some vpool =>
      '(rc, vpool) ←
        tx_run vpool
          (fun vpool =>
             '(rc, tcx) ← dbtree_iter_delete vct_ops (vp_cont_ith vpool) (cot_hdl co_iter);
             Returned (TX_STAGE_WORK, rc, pool_of_tcx tcx))
          umem_tx_errno;
      Returned (rc, st_set_pool st (cot_pool co_iter) vpool,
                mk_co_iter (it_type co_iter)
                  (if rc =? 0 then btr_iter_reset (cot_hdl co_iter) else cot_hdl co_iter)
                  (cot_pool co_iter))
  end.

End MoreContainer.

(** ** Invariants of the durable state *)

(** The durable part of a pool: heap, allocator budget and directory. *)
Definition pool_durable (vpool : vos_pool)
  : gmap N umem_obj * nat * list btr_record :=
  (umm_heap (vp_umm vpool), umm_avail (vp_umm vpool), vp_cont_root vpool).

Definition same_durable (st st' : vos_state) : Prop :=
  forall poh, pool_durable <$> (st_pools st' !! poh) = pool_durable <$> (st_pools st !! poh).

(** Every record of the directory resolves to a container record that
    carries the digest as its identifier and owns a live object index. *)
Definition dir_wf (vpool : vos_pool) : Prop :=
  forall rec, rec ∈ vp_cont_root vpool ->
    rec_mmid rec <> UMMID_NULL /\
    exists c oi,
      umm_heap (vp_umm vpool) !! rec_mmid rec = Some (ObjContainer c) /\
      vc_id c = rec_hkey rec /\
      vc_obtable c <> UMMID_NULL /\
      umm_heap (vp_umm vpool) !! vc_obtable c = Some (ObjIndex oi).

(** * Properties *)

(** ** General facts *)

Lemma umem_fresh_above (h : gmap N umem_obj) (k : N) :
  is_Some (h !! k) -> (k < umem_fresh h)%N.
Proof.
  unfold umem_fresh.
  revert k.
  apply (map_fold_weak_ind
           (fun r (m : gmap N umem_obj) => forall k, is_Some (m !! k) -> (k < N.succ r)%N)).
  - intros k [x Hx]. rewrite lookup_empty in Hx. discriminate.
  - intros i x m r Hi IH k Hk.
    destruct (decide (i = k)) as [->|Hne].
    + lia.
    + rewrite lookup_insert_ne in Hk by done. specialize (IH k Hk). lia.
Qed.

Lemma umem_fresh_unused (h : gmap N umem_obj) : h !! umem_fresh h = None.
Proof.
  destruct (h !! umem_fresh h) eqn:E; [|done].
  assert (umem_fresh h < umem_fresh h)%N by (apply umem_fresh_above; eauto).
  lia.
Qed.

Lemma umem_fresh_not_null (h : gmap N umem_obj) : TMMID_IS_NULL (umem_fresh h) = false.
Proof. unfold TMMID_IS_NULL, umem_fresh. apply N.eqb_neq. lia. Qed.

Ltac der_facts :=
  let H := fresh "Hder" in
  pose proof DER_positive as H;
  destruct H as (? & ? & ? & ? & ? & ? & ?).

Lemma TMMID_IS_NULL_true (id : umem_id_t) : TMMID_IS_NULL id = true <-> id = UMMID_NULL.
Proof. unfold TMMID_IS_NULL, UMMID_NULL. apply N.eqb_eq. Qed.

Lemma TMMID_IS_NULL_false (id : umem_id_t) : TMMID_IS_NULL id = false <-> id <> UMMID_NULL.
Proof. unfold TMMID_IS_NULL, UMMID_NULL. apply N.eqb_neq. Qed.

(** ** The record-lifecycle callbacks *)

Section CallbackFacts.
Context `{env : vos_env}.

(** C5 (as amended).  For a key of the identifier's size the digest is the
    key's bytes, unchanged; for a key of any other size the assertion of
    the key-digest operation fails: the operation does not return, and in
    particular reports no error code. *)
Theorem vc_hkey_gen_copies_or_aborts
    (tins : btr_instance) (key_iov : daos_iov_t (list byte)) :
  (iov_len key_iov = sizeof_uuid ->
   length (iov_buf key_iov) = 16%nat ->
   vc_hkey_gen tins key_iov = Returned (iov_buf key_iov)) /\
  (iov_len key_iov <> sizeof_uuid ->
   vc_hkey_gen tins key_iov = Crashed AssertionFailure).
Proof.
  unfold vc_hkey_gen, D_ASSERT. split.
  - intros Hlen Hbuf. rewrite Hlen. rewrite Z.eqb_refl. simpl.
    rewrite take_ge; [reflexivity | rewrite Hbuf; unfold sizeof_uuid; lia].
  - intros Hlen. apply Z.eqb_neq in Hlen. rewrite Hlen. reflexivity.
Qed.

(** C9.  The fetch callback returns 0 for every record; the view it leaves
    in the caller's buffer holds the pointer obtained from the record's id
    (so the view and the tree record resolve to the same durable object in
    every heap), keeps the pool pointer, and has the length of the view
    structure. *)
Theorem vc_rec_fetch_total (tins : btr_instance) (rec : btr_record)
    (key_iov : daos_iov_t (list byte)) (val_iov : daos_iov_t vc_val_buf) :
  exists val',
    vc_rec_fetch tins rec key_iov val_iov = (0, val') /\
    vc_co (iov_buf val') = umem_id2ptr (ti_umm tins) (rec_mmid rec) /\
    (forall umm, umem_container umm (vc_co (iov_buf val')) =
                 umem_container umm (rec_mmid rec)) /\
    vc_vpool (iov_buf val') = vc_vpool (iov_buf val_iov) /\
    iov_len val' = sizeof_vc_val_buf.
Proof.
  eexists. split; [reflexivity|]. simpl. repeat split; reflexivity.
Qed.

(** C3 (as amended).  For a null record id the free callback returns
    [-DER_NONEXIST] and changes nothing.  For a record id that holds a
    container record it returns 0 and its calls are, in order: the release
    of the object index when the record has one, then the release of the
    record; it makes no other call, so it does not run the object-index
    finalizer. *)
Theorem vc_rec_free_releases_storage (tins : btr_instance) (rec : btr_record) :
  (rec_mmid rec = UMMID_NULL ->
   vc_rec_free tins rec = Returned (- DER_NONEXIST, tins)) /\
  (forall c,
     rec_mmid rec <> UMMID_NULL ->
     umm_heap (ti_umm tins) !! rec_mmid rec = Some (ObjContainer c) ->
     exists tins',
       vc_rec_free tins rec = Returned (0, tins') /\
       umm_log (ti_umm tins') =
         umm_log (ti_umm tins) ++
         (if TMMID_IS_NULL (vc_obtable c) then [] else [EvFree (vc_obtable c)]) ++
         [EvFree (rec_mmid rec)] /\
       umm_heap (ti_umm tins') =
         delete (rec_mmid rec)
           (if TMMID_IS_NULL (vc_obtable c) then umm_heap (ti_umm tins)
            else delete (vc_obtable c) (umm_heap (ti_umm tins)))).
Proof.
  unfold vc_rec_free. cbv zeta. split.
  - intros Hnull. apply TMMID_IS_NULL_true in Hnull. rewrite Hnull. reflexivity.
  - intros c Hnn Hc. apply TMMID_IS_NULL_false in Hnn. rewrite Hnn.
    unfold umem_container, umem_id2ptr. rewrite Hc. simpl.
    eexists. split; [reflexivity|].
    destruct (TMMID_IS_NULL (vc_obtable c)); simpl.
    + split; reflexivity.
    + split; [|reflexivity]. rewrite <- app_assoc. reflexivity.
Qed.

(** C1 fails on the code.  The cleanup at the exit of the allocation
    callback is given the caller's record, whose id the callback sets on
    success only.  For a record that came in with a null id, as the tree
    hands it over on insert, a call that fails returns its error code but
    releases nothing: the log gains no [EvFree], every object of the heap
    stays, and when the first allocation succeeded the container record
    it produced is still in the heap. *)
Theorem vc_rec_alloc_failure_frees_nothing
    (tins : btr_instance) (key_iov : daos_iov_t (list byte))
    (val_iov : daos_iov_t vc_val_buf) (rec : btr_record)
    (rc : Z) (tins' : btr_instance) (val' : daos_iov_t vc_val_buf) (rec' : btr_record) :
  rec_mmid rec = UMMID_NULL ->
  vc_rec_alloc tins key_iov val_iov rec = Returned (rc, tins', val', rec') ->
  rc <> 0 ->
  (forall id, EvFree id ∈ umm_log (ti_umm tins') -> EvFree id ∈ umm_log (ti_umm tins)) /\
  (forall id, is_Some (umm_heap (ti_umm tins) !! id) ->
              is_Some (umm_heap (ti_umm tins') !! id)) /\
  ((0 < umm_avail (ti_umm tins))%nat ->
   exists c, umm_heap (ti_umm tins') !! umem_fresh (umm_heap (ti_umm tins)) =
             Some (ObjContainer c)).
Proof.
  intros Hrec Hrun Hrc. unfold vc_rec_alloc in Hrun.
  destruct (iov_len key_iov =? sizeof_uuid); simpl in Hrun; [|discriminate].
  unfold umem_znew at 1 in Hrun.
  destruct tins as [[h avail log]]. simpl in *.
  destruct avail as [|n]; simpl in Hrun.
  { injection Hrun as <- <- <- <-. simpl. split; [auto|split; [auto|intros; lia]]. }
  rewrite umem_fresh_not_null in Hrun.
  unfold umem_container, umem_id2ptr in Hrun. simpl in Hrun.
  rewrite lookup_insert_eq in Hrun. simpl in Hrun.
  set (cid := umem_fresh h) in *.
  assert (Hkeep : forall (v : umem_obj) id, is_Some (h !! id) -> is_Some (<[cid := v]> h !! id)).
  { intros v id Hid. destruct (decide (cid = id)) as [->|Hne].
    - rewrite lookup_insert_eq. eauto.
    - rewrite lookup_insert_ne by done. done. }
  assert (Hfree : forall id (l : list event), EvFree id ∈ log ++ l ->
            (forall id', EvFree id' ∉ l) -> EvFree id ∈ log).
  { intros id l Hin Hl. apply elem_of_app in Hin as [Hin|Hin]; [done|].
    exfalso. by eapply Hl. }
  unfold umem_znew in Hrun. simpl in Hrun.
  destruct n as [|n]; simpl in Hrun.
  - (* the object index cannot be allocated *)
    unfold vc_rec_free in Hrun. rewrite Hrec in Hrun. simpl in Hrun.
    der_facts.
    replace (- DER_NOMEM =? 0) with false in Hrun by (symmetry; apply Z.eqb_neq; lia).
    simpl in Hrun.
    injection Hrun as <- <- <- <-. simpl. split; [|split].
    + intros id Hin. apply (Hfree id [EvAlloc cid]); [done|].
      intros id' Hin'. apply list_elem_of_singleton in Hin'. discriminate.
    + intros id Hid. rewrite insert_insert_eq. rewrite insert_insert_eq. by apply Hkeep.
    + intros _. rewrite !insert_insert_eq. rewrite lookup_insert_eq. eauto.
  - rewrite insert_insert_eq in Hrun.
    set (h1 := <[cid := ObjContainer _]> h) in *.
    set (oid := umem_fresh h1) in *.
    assert (Hoid : cid <> oid).
    { intros Heq. pose proof (umem_fresh_unused h1) as Hu. fold oid in Hu.
      rewrite <- Heq in Hu. unfold h1 in Hu. rewrite lookup_insert_eq in Hu. discriminate. }
    assert (Hnn : TMMID_IS_NULL oid = false) by apply umem_fresh_not_null.
    rewrite Hnn in Hrun. simpl in Hrun.
    unfold umem_index, umem_id2ptr in Hrun. simpl in Hrun.
    rewrite lookup_insert_ne in Hrun by done.
    rewrite lookup_insert_eq in Hrun. simpl in Hrun.
    destruct (vos_oi_create (vc_vpool (iov_buf val_iov)) zeroed_index) as [rc1 oi1].
    simpl in Hrun.
    destruct (rc1 =? 0) eqn:Hrc1; simpl in Hrun.
    + rewrite Hrc1 in Hrun. simpl in Hrun.
      injection Hrun as <- <- <- <-. apply Z.eqb_eq in Hrc1. contradiction.
    + rewrite Hrc1 in Hrun. simpl in Hrun.
      unfold vc_rec_free in Hrun. rewrite Hrec in Hrun. simpl in Hrun.
      injection Hrun as <- <- <- <-. simpl. split; [|split].
      * intros id Hin. rewrite <- app_assoc in Hin. rewrite <- app_assoc in Hin.
        apply (Hfree id _ Hin).
        intros id' Hin'. simpl in Hin'.
        repeat (apply elem_of_cons in Hin' as [Hin'|Hin']; [discriminate|]).
        by apply elem_of_nil in Hin'.
      * intros id Hid.
        destruct (decide (oid = id)) as [->|Hne1]; [rewrite lookup_insert_eq; eauto|].
        rewrite lookup_insert_ne by done.
        destruct (decide (cid = id)) as [->|Hne2]; [rewrite lookup_insert_eq; eauto|].
        rewrite lookup_insert_ne by done.
        rewrite lookup_insert_ne by done.
        unfold h1. by apply Hkeep.
      * intros _. rewrite lookup_insert_ne by done. rewrite lookup_insert_eq. eauto.
Qed.

End CallbackFacts.

(** ** Digest order and the directory *)

Lemma byte_to_N_inj (x y : byte) : Byte.to_N x = Byte.to_N y -> x = y.
Proof.
  intros H. assert (Some x = Some y) as [= ->]; [|done].
  rewrite <- !Byte.of_to_N. by rewrite H.
Qed.

Lemma hkey_cmp_refl (a : list byte) : hkey_cmp a a = Eq.
Proof. induction a as [|x a IH]; simpl; [done|]. by rewrite N.compare_refl. Qed.

Lemma hkey_cmp_eq (a b : list byte) : hkey_cmp a b = Eq -> a = b.
Proof.
  revert b. induction a as [|x a IH]; intros [|y b]; simpl; try done.
  destruct (Byte.to_N x ?= Byte.to_N y)%N eqn:E; try done.
  intros H. apply N.compare_eq in E. apply byte_to_N_inj in E as ->.
  f_equal. by apply IH.
Qed.

Lemma hkey_cmp_antisym (a b : list byte) : hkey_cmp b a = CompOpp (hkey_cmp a b).
Proof.
  revert b. induction a as [|x a IH]; intros [|y b]; simpl; try done.
  rewrite (N.compare_antisym (Byte.to_N x) (Byte.to_N y)).
  destruct (Byte.to_N x ?= Byte.to_N y)%N; simpl; auto.
Qed.

Lemma hkey_lt_trans (a b c : list byte) : hkey_lt a b -> hkey_lt b c -> hkey_lt a c.
Proof.
  unfold hkey_lt. revert b c.
  induction a as [|x a IH]; intros [|y b] [|z c]; simpl; try done.
  destruct (Byte.to_N x ?= Byte.to_N y)%N eqn:E1; try done;
    destruct (Byte.to_N y ?= Byte.to_N z)%N eqn:E2; try done; intros H1 H2.
  - apply N.compare_eq in E1, E2. rewrite E1, E2, N.compare_refl. eauto.
  - apply N.compare_eq in E1. by rewrite E1, E2.
  - apply N.compare_eq in E2. by rewrite <- E2, E1.
  - rewrite N.compare_lt_iff in E1, E2.
    assert ((Byte.to_N x ?= Byte.to_N z)%N = Lt) as -> by (apply N.compare_lt_iff; lia).
    done.
Qed.

Lemma hkey_lt_irrefl (a : list byte) : ~ hkey_lt a a.
Proof. unfold hkey_lt. by rewrite hkey_cmp_refl. Qed.

Lemma hkey_le_refl (a : list byte) : hkey_le a a.
Proof. unfold hkey_le. by rewrite hkey_cmp_refl. Qed.

Lemma hkey_lt_le (a b : list byte) : hkey_lt a b -> hkey_le a b.
Proof. unfold hkey_lt, hkey_le. intros ->. done. Qed.

Lemma hkey_not_le_lt (a b : list byte) : ~ hkey_le a b -> hkey_lt b a.
Proof.
  unfold hkey_le, hkey_lt. intros H. rewrite hkey_cmp_antisym.
  destruct (hkey_cmp a b); simpl; try done; exfalso; by apply H.
Qed.

Lemma btr_sorted_lookup (root : list btr_record) (i j : nat) (x y : btr_record) :
  btr_sorted root -> root !! i = Some x -> root !! j = Some y -> (i < j)%nat ->
  hkey_lt (rec_hkey x) (rec_hkey y).
Proof.
  unfold btr_sorted. intros Hs. revert i j.
  induction Hs as [|r root Hs IH Hall]; intros i j Hi Hj Hlt.
  - rewrite lookup_nil in Hi. discriminate.
  - destruct j as [|j]; [lia|]. simpl in Hj.
    destruct i as [|i]; simpl in Hi.
    + injection Hi as ->. rewrite Forall_forall in Hall. apply Hall.
      eapply list_elem_of_lookup_2. eauto.
    + apply (IH i j); auto. lia.
Qed.

Lemma btr_filter_none (root : list btr_record) (hkey : list byte) :
  (forall r, r ∈ root -> rec_hkey r <> hkey) ->
  filter (fun r => rec_hkey r = hkey) root = [].
Proof.
  induction root as [|r root IH]; intros H; [done|].
  rewrite filter_cons_False by (apply H; left).
  apply IH. intros r' Hr'. apply H. by right.
Qed.

Lemma btr_sorted_unique (root : list btr_record) (hkey : list byte) :
  btr_sorted root ->
  (exists rec, rec ∈ root /\ rec_hkey rec = hkey) ->
  length (filter (fun r => rec_hkey r = hkey) root) = 1%nat.
Proof.
  unfold btr_sorted. intros Hs. induction Hs as [|r root Hs IH Hall]; intros (rec & Hin & Hk).
  - by apply elem_of_nil in Hin.
  - rewrite filter_cons. destruct (decide (rec_hkey r = hkey)) as [Heq|Hne].
    + simpl. f_equal.
      rewrite btr_filter_none; [done|].
      rewrite Forall_forall in Hall. intros r' Hr' Hk'.
      specialize (Hall r' Hr'). rewrite Heq, Hk' in Hall. by apply hkey_lt_irrefl in Hall.
    + apply IH. exists rec. split; [|done].
      apply elem_of_cons in Hin as [->|Hin]; [contradiction|done].
Qed.

Lemma btr_insert_elem (rec r : btr_record) (root : list btr_record) :
  r ∈ btr_insert rec root <-> r = rec \/ r ∈ root.
Proof.
  induction root as [|r0 root IH]; simpl.
  - rewrite list_elem_of_singleton. rewrite elem_of_nil. tauto.
  - destruct (hkey_cmp (rec_hkey rec) (rec_hkey r0)); rewrite ?elem_of_cons; tauto.
Qed.

(** Inserting a record whose digest is not in the tree keeps the order. *)
Lemma btr_insert_sorted (rec : btr_record) (root : list btr_record) :
  btr_sorted root ->
  (forall r, r ∈ root -> rec_hkey r <> rec_hkey rec) ->
  btr_sorted (btr_insert rec root).
Proof.
  unfold btr_sorted. intros Hs. induction Hs as [|r0 root Hs IH Hall]; intros Hnew; simpl.
  - repeat constructor.
  - rewrite Forall_forall in Hall.
    destruct (hkey_cmp (rec_hkey rec) (rec_hkey r0)) eqn:E.
    + apply hkey_cmp_eq in E. exfalso. apply (Hnew r0); [left|done].
    + constructor; [by constructor; [|apply Forall_forall]|].
      constructor; [exact E|]. apply Forall_forall. intros r' Hr'.
      eapply hkey_lt_trans; [exact E|]. by apply Hall.
    + constructor.
      * apply IH. intros r' Hr'. apply Hnew. by right.
      * apply Forall_forall. intros r' Hr'. apply btr_insert_elem in Hr' as [->|Hr'].
        -- unfold hkey_lt. rewrite hkey_cmp_antisym, E. done.
        -- by apply Hall.
Qed.

Lemma btr_find_Some (hkey : list byte) (root : list btr_record) (rec : btr_record) :
  btr_find hkey root = Some rec -> rec ∈ root /\ rec_hkey rec = hkey.
Proof.
  unfold btr_find. destruct (list_find _ root) as [[i r]|] eqn:E; simpl; [|done].
  intros [= <-]. apply list_find_Some in E as (Hi & Hk & _).
  split; [by eapply list_elem_of_lookup_2|done].
Qed.

Lemma btr_find_elem (hkey : list byte) (root : list btr_record) :
  (exists rec, rec ∈ root /\ rec_hkey rec = hkey) ->
  exists rec, btr_find hkey root = Some rec.
Proof.
  intros (rec & Hin & Hk). unfold btr_find.
  destruct (list_find_elem_of (fun r => rec_hkey r = hkey) root rec Hin Hk) as [[i r] ->].
  simpl. eauto.
Qed.

Lemma btr_find_None (hkey : list byte) (root : list btr_record) :
  btr_find hkey root = None -> forall r, r ∈ root -> rec_hkey r <> hkey.
Proof.
  unfold btr_find. destruct (list_find _ root) as [[i r]|] eqn:E; simpl; [done|].
  intros _ r Hr. rewrite list_find_None in E. rewrite Forall_forall in E. by apply E.
Qed.

(** ** Container operations *)

Section ContainerFacts.
Context `{env : vos_env}.

Lemma uuid_copy_idemp (u : uuid_t) : take 16%nat (uuid_copy u) = uuid_copy u.
Proof. unfold uuid_copy. rewrite take_take. reflexivity. Qed.

Lemma vc_hkey_gen_ukey (tins : btr_instance) (u : uuid_t) :
  vc_hkey_gen tins (daos_iov_set (uuid_copy u) sizeof_uuid) = Returned (uuid_copy u).
Proof. unfold vc_hkey_gen. simpl. f_equal. apply uuid_copy_idemp. Qed.

Lemma vos_co_tree_lookup_found (vpool : vos_pool) (u : uuid_t) (sbuf : vc_val_buf)
    (rec : btr_record) :
  btr_find (uuid_copy u) (vp_cont_root vpool) = Some rec ->
  vos_co_tree_lookup vpool (uuid_copy u) sbuf =
    Returned (0, pool_emit vpool (EvTreeLookup (uuid_copy u)),
              mk_val_buf (rec_mmid rec) (vc_vpool sbuf)).
Proof.
  intros Hfind. unfold vos_co_tree_lookup, dbtree_lookup.
  cbn [to_hkey_gen vct_ops]. rewrite vc_hkey_gen_ukey. simpl.
  rewrite Hfind. reflexivity.
Qed.

Lemma vos_co_tree_lookup_missing (vpool : vos_pool) (u : uuid_t) (sbuf : vc_val_buf) :
  btr_find (uuid_copy u) (vp_cont_root vpool) = None ->
  vos_co_tree_lookup vpool (uuid_copy u) sbuf =
    Returned (- DER_NONEXIST, pool_emit vpool (EvTreeLookup (uuid_copy u)), sbuf).
Proof.
  intros Hfind. unfold vos_co_tree_lookup, dbtree_lookup.
  cbn [to_hkey_gen vct_ops]. rewrite vc_hkey_gen_ukey. simpl.
  rewrite Hfind. reflexivity.
Qed.

(** C4.  When the directory of the pool holds a record for the identifier,
    create returns [-DER_EXIST]; the only change to the state is the log
    entry of the lookup, so the records of the directory and the heap are
    as before, and the ordered directory holds exactly one record for the
    identifier. *)
Theorem vos_co_create_existing (st : vos_state) (poh : N) (co_uuid : uuid_t)
    (vpool : vos_pool) :
  vos_hdl2pool st poh = Some vpool ->
  btr_sorted (vp_cont_root vpool) ->
  (exists rec, rec ∈ vp_cont_root vpool /\ rec_hkey rec = uuid_copy co_uuid) ->
  exists st' vpool',
    vos_co_create st poh co_uuid = Returned (- DER_EXIST, st') /\
    st' = st_set_pool st poh (pool_emit vpool (EvTreeLookup (uuid_copy co_uuid))) /\
    vos_hdl2pool st' poh = Some vpool' /\
    vp_cont_root vpool' = vp_cont_root vpool /\
    umm_heap (vp_umm vpool') = umm_heap (vp_umm vpool) /\
    st_hhash st' = st_hhash st /\
    length (filter (fun r => rec_hkey r = uuid_copy co_uuid) (vp_cont_root vpool')) = 1%nat.
Proof.
  intros Hpool Hsorted Hex.
  destruct (btr_find_elem _ _ Hex) as [rec Hfind].
  eexists _, (pool_emit vpool (EvTreeLookup (uuid_copy co_uuid))).
  unfold vos_co_create. rewrite Hpool.
  rewrite (vos_co_tree_lookup_found _ _ _ _ Hfind). simpl.
  split; [reflexivity|]. split; [reflexivity|].
  split; [unfold vos_hdl2pool; simpl; apply lookup_insert_eq|].
  repeat split. by apply btr_sorted_unique.
Qed.

Lemma st_set_hhash_id (st : vos_state) : st_set_hhash st (st_hhash st) = st.
Proof. by destruct st. Qed.

(** The reference taken by a successful cache lookup is given back by
    [vos_co_putref_handle]: the cache is as it was before the lookup. *)
Lemma vos_co_putref_after_lookup (hh : gmap (list byte) vc_hdl) (ukey : uuid_t) (h : vc_hdl) :
  hh !! ukey = Some h ->
  exists hh1,
    vos_co_lookup_handle hh ukey = (0, Some ukey, hh1) /\
    hh1 !! ukey = Some (hdl_set_ref h (S (hdl_vc_ref h))) /\
    vos_co_putref_handle hh1 (Some ukey) = Returned hh.
Proof.
  intros Hh. unfold vos_co_lookup_handle. rewrite Hh.
  eexists. split; [reflexivity|]. split; [apply lookup_insert_eq|].
  unfold vos_co_putref_handle. rewrite lookup_insert_eq. simpl. f_equal.
  rewrite insert_insert_eq. unfold hdl_set_ref at 1. simpl.
  apply insert_id. rewrite Hh. f_equal. by destruct h.
Qed.

(** C2.  With a pool handle that resolves: when the handle cache holds a
    handle for the identifier, the lookup takes a reference (count plus
    one), destroy gives it back and returns [-DER_BUSY], and the state,
    pools included, is as before the call; when the cache holds none and
    the directory has no record for the identifier, destroy returns
    [-DER_NONEXIST], and the only change is the log entry of the lookup,
    so the records of the directory and the heap are as before. *)
Theorem vos_co_destroy_busy_or_missing (st : vos_state) (poh : N) (co_uuid : uuid_t)
    (vpool : vos_pool) :
  vos_hdl2pool st poh = Some vpool ->
  (forall h,
     st_hhash st !! uuid_copy co_uuid = Some h ->
     (exists hh1,
        vos_co_lookup_handle (st_hhash st) (uuid_copy co_uuid) =
          (0, Some (uuid_copy co_uuid), hh1) /\
        hh1 !! uuid_copy co_uuid = Some (hdl_set_ref h (S (hdl_vc_ref h))) /\
        vos_co_putref_handle hh1 (Some (uuid_copy co_uuid)) = Returned (st_hhash st)) /\
     vos_co_destroy st poh co_uuid = Returned (- DER_BUSY, st)) /\
  (st_hhash st !! uuid_copy co_uuid = None ->
   btr_find (uuid_copy co_uuid) (vp_cont_root vpool) = None ->
   exists st' vpool',
     vos_co_destroy st poh co_uuid = Returned (- DER_NONEXIST, st') /\
     st' = st_set_pool st poh (pool_emit vpool (EvTreeLookup (uuid_copy co_uuid))) /\
     vos_hdl2pool st' poh = Some vpool' /\
     vp_cont_root vpool' = vp_cont_root vpool /\
     umm_heap (vp_umm vpool') = umm_heap (vp_umm vpool) /\
     st_hhash st' = st_hhash st).
Proof.
  intros Hpool. der_facts. split.
  - intros h Hh.
    destruct (vos_co_putref_after_lookup _ _ _ Hh) as (hh1 & Hlook & Href & Hput).
    split; [by exists hh1|].
    unfold vos_co_destroy. rewrite Hpool, Hlook.
    replace (0 =? - DER_NONEXIST) with false by (symmetry; apply Z.eqb_neq; lia).
    cbn -[vos_co_putref_handle]. rewrite Hput. by destruct st.
  - intros Hh Hfind.
    eexists _, (pool_emit vpool (EvTreeLookup (uuid_copy co_uuid))).
    unfold vos_co_destroy. rewrite Hpool.
    unfold vos_co_lookup_handle. rewrite Hh.
    rewrite Z.eqb_refl. simpl.
    rewrite (vos_co_tree_lookup_missing _ _ _ Hfind). simpl.
    replace (- DER_NONEXIST =? 0) with false by (symmetry; apply Z.eqb_neq; lia).
    simpl. rewrite st_set_hhash_id.
    split; [reflexivity|]. split; [reflexivity|].
    split; [unfold vos_hdl2pool; simpl; apply lookup_insert_eq|].
    repeat split.
Qed.

(** C6.  With a pool handle that resolves and a handle for the identifier
    in the cache, open returns 0 and the handle found, whose reference
    count has been incremented; the pools, and with them the directory,
    the heap and the log of tree lookups, are not touched. *)
Theorem vos_co_open_cached (st : vos_state) (poh : N) (co_uuid : uuid_t)
    (vpool : vos_pool) (h : vc_hdl) :
  vos_hdl2pool st poh = Some vpool ->
  st_hhash st !! uuid_copy co_uuid = Some h ->
  exists st',
    vos_co_open st poh co_uuid = Returned (0, st', Some (uuid_copy co_uuid)) /\
    st_hhash st' =
      <[uuid_copy co_uuid := hdl_set_ref h (S (hdl_vc_ref h))]> (st_hhash st) /\
    st_hhash st' !! uuid_copy co_uuid = Some (hdl_set_ref h (S (hdl_vc_ref h))) /\
    st_pools st' = st_pools st /\
    st_dram st' = st_dram st.
Proof.
  intros Hpool Hh. unfold vos_co_open. rewrite Hpool.
  unfold vos_co_lookup_handle. rewrite Hh. simpl.
  eexists. split; [reflexivity|]. simpl.
  split; [reflexivity|]. split; [apply lookup_insert_eq|]. split; reflexivity.
Qed.

(** C8 (as amended).  When the identifier is not in the directory and the
    insert made inside the transaction returns a non-zero code, the
    transaction is aborted with the cause [ENOMEM] whatever that code is,
    the heap, the allocator budget and the directory are as before the
    call, and create returns [umem_tx_errno] applied to the code of the
    insert. *)
Theorem vos_co_create_insert_failure (st : vos_state) (poh : N) (co_uuid : uuid_t)
    (vpool : vos_pool) (rc : Z) (tcx : btr_context) (val : daos_iov_t vc_val_buf) :
  vos_hdl2pool st poh = Some vpool ->
  btr_find (uuid_copy co_uuid) (vp_cont_root vpool) = None ->
  dbtree_update vct_ops
    (vp_cont_ith (pool_emit (pool_emit vpool (EvTreeLookup (uuid_copy co_uuid))) EvTxBegin))
    (daos_iov_set (uuid_copy co_uuid) sizeof_uuid)
    (daos_iov_set (mk_val_buf 0%N poh) sizeof_vc_val_buf) = Returned (rc, tcx, val) ->
  rc <> 0 ->
  exists st' vpool',
    vos_co_create st poh co_uuid = Returned (umem_tx_errno rc, st') /\
    vos_hdl2pool st' poh = Some vpool' /\
    umm_log (vp_umm vpool') = umm_log (ti_umm (tc_tins tcx)) ++ [EvTxAbort ENOMEM] /\
    umm_heap (vp_umm vpool') = umm_heap (vp_umm vpool) /\
    umm_avail (vp_umm vpool') = umm_avail (vp_umm vpool) /\
    vp_cont_root vpool' = vp_cont_root vpool.
Proof.
  intros Hpool Hfind Hupd Hrc. der_facts.
  unfold vos_co_create. rewrite Hpool.
  rewrite (vos_co_tree_lookup_missing _ _ _ Hfind). simpl.
  replace (- DER_NONEXIST =? 0) with false by (symmetry; apply Z.eqb_neq; lia).
  unfold tx_run. simpl. rewrite Hupd. simpl.
  apply Z.eqb_neq in Hrc. rewrite Hrc. simpl.
  eexists _, _. split; [reflexivity|].
  split; [unfold vos_hdl2pool; simpl; apply lookup_insert_eq|].
  simpl. repeat split.
Qed.

(** The allocation callback leaves the digest of the record alone. *)
Lemma vc_rec_alloc_hkey (tins : btr_instance) (key_iov : daos_iov_t (list byte))
    (val_iov : daos_iov_t vc_val_buf) (rec : btr_record)
    (rc : Z) (tins' : btr_instance) (val' : daos_iov_t vc_val_buf) (rec' : btr_record) :
  vc_rec_alloc tins key_iov val_iov rec = Returned (rc, tins', val', rec') ->
  rec_hkey rec' = rec_hkey rec.
Proof.
  unfold vc_rec_alloc, mbind, outcome_bind, D_ASSERT, vc_rec_free.
  intros H. repeat (case_match; simplify_eq/=); done.
Qed.

(** Create keeps the directory in ascending digest order, whatever its
    result. *)
Lemma vos_co_create_sorted (st : vos_state) (poh : N) (co_uuid : uuid_t)
    (vpool : vos_pool) (rc : Z) (st' : vos_state) :
  vos_hdl2pool st poh = Some vpool ->
  btr_sorted (vp_cont_root vpool) ->
  vos_co_create st poh co_uuid = Returned (rc, st') ->
  exists vpool', vos_hdl2pool st' poh = Some vpool' /\ btr_sorted (vp_cont_root vpool').
Proof.
  intros Hpool Hsorted. unfold vos_co_create. rewrite Hpool.
  destruct (btr_find (uuid_copy co_uuid) (vp_cont_root vpool)) as [rec|] eqn:Hfind.
  - rewrite (vos_co_tree_lookup_found _ _ _ _ Hfind). simpl.
    intros [= <- <-]. eexists. split; [apply lookup_insert_eq|done].
  - rewrite (vos_co_tree_lookup_missing _ _ _ Hfind). simpl. der_facts.
    replace (- DER_NONEXIST =? 0) with false by (symmetry; apply Z.eqb_neq; lia).
    unfold tx_run, dbtree_update. cbn [to_hkey_gen vct_ops].
    rewrite vc_hkey_gen_ukey. simpl. rewrite Hfind.
    destruct (vc_rec_alloc _ _ _ _) as [[[[rc1 tins1] val1] rec1]|] eqn:Halloc; simpl;
      [|discriminate].
    apply vc_rec_alloc_hkey in Halloc. simpl in Halloc.
    destruct (rc1 =? 0) eqn:Hrc1; simpl.
    + intros [= <- <-]. eexists. split; [apply lookup_insert_eq|]. simpl.
      apply btr_insert_sorted; [done|].
      intros r Hr. rewrite Halloc. by apply (btr_find_None _ _ Hfind).
    + rewrite Hrc1. simpl.
      intros [= <- <-]. eexists. split; [apply lookup_insert_eq|done].
Qed.

End ContainerFacts.

(** ** The container-UUID iterator *)

Section IteratorFacts.
Context `{env : vos_env}.

(** C7.  For an iterator of the container-UUID type with a valid tree
    handle, over a pool whose directory is in ascending digest order:
    without an anchor, probe on a non-empty directory returns 0 with the
    cursor on the first record, whose digest is the least of the
    directory; with an anchor, as soon as some record has a digest not
    below the anchor, probe returns 0 with the cursor on a record that is
    not below the anchor, that every record before it is below the anchor
    and that no record at or above the anchor precedes in digest order. *)
Theorem vos_co_iter_probe_position (st : vos_state) (co_iter : vos_co_iter)
    (vpool : vos_pool) (cur : btr_cursor) :
  it_type co_iter = VOS_ITER_COUUID ->
  cot_hdl co_iter = Some cur ->
  st_pools st !! cot_pool co_iter = Some vpool ->
  btr_sorted (vp_cont_root vpool) ->
  (forall first rest,
     vp_cont_root vpool = first :: rest ->
     vos_co_iter_probe st co_iter None =
       Returned (0, mk_co_iter VOS_ITER_COUUID (Some (CursorAt 0)) (cot_pool co_iter)) /\
     vp_cont_root vpool !! 0%nat = Some first /\
     (forall r, r ∈ vp_cont_root vpool -> hkey_le (rec_hkey first) (rec_hkey r))) /\
  (forall a r,
     r ∈ vp_cont_root vpool -> hkey_le a (rec_hkey r) ->
     exists i e,
       vos_co_iter_probe st co_iter (Some a) =
         Returned (0, mk_co_iter VOS_ITER_COUUID (Some (CursorAt i)) (cot_pool co_iter)) /\
       vp_cont_root vpool !! i = Some e /\
       hkey_le a (rec_hkey e) /\
       (forall j r', (j < i)%nat -> vp_cont_root vpool !! j = Some r' ->
                     hkey_lt (rec_hkey r') a) /\
       (forall r', r' ∈ vp_cont_root vpool -> hkey_le a (rec_hkey r') ->
                   hkey_le (rec_hkey e) (rec_hkey r'))).
Proof.
  intros Htype Hhdl Hpool Hsorted.
  unfold vos_co_iter_probe, vos_co_iter_tree, dbtree_iter_probe.
  rewrite Htype, Hhdl, Hpool. simpl. split.
  - intros first rest Hroot. rewrite Hroot. simpl.
    split; [reflexivity|]. split; [reflexivity|].
    intros r Hr. apply elem_of_cons in Hr as [->|Hr]; [apply hkey_le_refl|].
    apply hkey_lt_le. rewrite Hroot in Hsorted.
    apply StronglySorted_inv in Hsorted as [_ Hall].
    rewrite Forall_forall in Hall. by apply Hall.
  - intros a r Hr Hle.
    destruct (list_find_elem_of (fun r => hkey_le a (rec_hkey r)) _ r Hr Hle)
      as [[i e] Hfind].
    rewrite Hfind. exists i, e.
    apply list_find_Some in Hfind as (Hi & He & Hbefore).
    split; [reflexivity|]. split; [exact Hi|]. split; [exact He|]. split.
    + intros j r' Hj Hr'. apply hkey_not_le_lt. by apply (Hbefore j).
    + intros r' Hr' Hle'.
      apply list_elem_of_lookup in Hr' as [j Hj].
      destruct (lt_eq_lt_dec j i) as [[Hlt|Heq]|Hgt].
      * exfalso. by apply (Hbefore j r').
      * subst j. rewrite Hi in Hj. injection Hj as ->. apply hkey_le_refl.
      * apply hkey_lt_le. by apply (btr_sorted_lookup (vp_cont_root vpool) i j).
Qed.

(** C10.  The identifier of the output entry is cleared before the tree
    iterator is asked: whenever fetch returns a non-zero code, whatever the
    entry held on entry, its identifier is the zero UUID. *)
Theorem vos_co_iter_fetch_failure_clears (st : vos_state) (co_iter : vos_co_iter)
    (it_entry : vos_iter_entry_t) (anchor : option (list byte))
    (rc : Z) (it_entry' : vos_iter_entry_t) (anchor' : option (list byte)) :
  vos_co_iter_fetch st co_iter it_entry anchor = Returned (rc, it_entry', anchor') ->
  rc <> 0 ->
  ie_couuid it_entry' = uuid_clear.
Proof.
  unfold vos_co_iter_fetch. intros Hrun Hrc.
  destruct (D_ASSERT (bool_decide (it_type co_iter = VOS_ITER_COUUID))); simpl in Hrun;
    [|discriminate].
  destruct (vos_co_iter_tree st co_iter) as [tcx|]; simpl in Hrun; [|discriminate].
  destruct (dbtree_iter_fetch vct_ops tcx (cot_hdl co_iter) _ _ anchor) as [[rc1 value] anchor1].
  destruct (rc1 =? 0) eqn:Hrc1; simpl in Hrun.
  - destruct (D_ASSERT (iov_len value =? sizeof_vc_val_buf)); simpl in Hrun; [|discriminate].
    destruct (umem_container _ _); simpl in Hrun; [|discriminate].
    injection Hrun as <- <- <-. apply Z.eqb_eq in Hrc1. contradiction.
  - by injection Hrun as <- <- <-.
Qed.

(** At the end of the sequence fetch fails with [-DER_NONEXIST]. *)
Lemma vos_co_iter_fetch_exhausted (st : vos_state) (co_iter : vos_co_iter)
    (vpool : vos_pool) (it_entry : vos_iter_entry_t) (anchor : option (list byte)) :
  it_type co_iter = VOS_ITER_COUUID ->
  cot_hdl co_iter = Some CursorNone ->
  st_pools st !! cot_pool co_iter = Some vpool ->
  vos_co_iter_fetch st co_iter it_entry anchor =
    Returned (- DER_NONEXIST, mk_entry uuid_clear, anchor).
Proof.
  intros Htype Hhdl Hpool. der_facts.
  unfold vos_co_iter_fetch, vos_co_iter_tree. rewrite Htype, Hhdl, Hpool. simpl.
  replace (- DER_NONEXIST =? 0) with false by (symmetry; apply Z.eqb_neq; lia).
  reflexivity.
Qed.

End IteratorFacts.

(** ** Closed instances *)

(** C5 (as stated) fails.  A key of three bytes does not make the
    key-digest operation report an invalid-argument error: its assertion
    fails and the call never returns to the tree engine. *)
Lemma vc_hkey_gen_short_key_aborts :
  vc_hkey_gen (mk_tins (vp_umm sample_pool)) short_key = Crashed AssertionFailure /\
  (forall r, vc_hkey_gen (mk_tins (vp_umm sample_pool)) short_key <> Returned r).
Proof. split; [reflexivity|]. intros r. discriminate. Qed.

Lemma vc_hkey_gen_copies_or_aborts_witness :
  vc_hkey_gen (mk_tins (vp_umm sample_pool)) (daos_iov_set uuid_a sizeof_uuid) =
    Returned uuid_a /\
  vc_hkey_gen (mk_tins (vp_umm sample_pool)) short_key = Crashed AssertionFailure.
Proof.
  split.
  - apply (proj1 (vc_hkey_gen_copies_or_aborts _ (daos_iov_set uuid_a sizeof_uuid)));
      reflexivity.
  - apply (proj2 (vc_hkey_gen_copies_or_aborts _ short_key)). simpl. unfold sizeof_uuid. lia.
Defined.

(** C3 (as stated) fails.  Freeing the record of container [uuid_a] makes
    two calls, the release of its object index and the release of the
    record: the object-index finalizer is not among them. *)
Lemma vc_rec_free_runs_no_finalizer :
  exists tins',
    vc_rec_free (env := sample_env 0 0) (mk_tins (vp_umm sample_pool)) (mk_rec 1%N uuid_a) =
      Returned (0, tins') /\
    umm_log (ti_umm tins') = [EvFree 2%N; EvFree 1%N] /\
    (forall id rc, EvOiDestroy id rc ∉ umm_log (ti_umm tins')).
Proof.
  eexists. split; [reflexivity|]. split; [reflexivity|].
  intros id rc Hin. simpl in Hin.
  repeat (apply elem_of_cons in Hin as [Hin|Hin]; [discriminate|]).
  by apply elem_of_nil in Hin.
Qed.

Lemma vc_rec_free_releases_storage_witness :
  vc_rec_free (env := sample_env 0 0) (mk_tins (vp_umm sample_pool)) (mk_rec UMMID_NULL uuid_a) =
    Returned (- 2005, mk_tins (vp_umm sample_pool)) /\
  exists tins',
    vc_rec_free (env := sample_env 0 0) (mk_tins (vp_umm sample_pool)) (mk_rec 1%N uuid_a) =
      Returned (0, tins') /\
    umm_log (ti_umm tins') = [EvFree 2%N; EvFree 1%N].
Proof.
  split.
  - apply (proj1 (vc_rec_free_releases_storage (env := sample_env 0 0)
                    (mk_tins (vp_umm sample_pool)) (mk_rec UMMID_NULL uuid_a))).
    reflexivity.
  - destruct (proj2 (vc_rec_free_releases_storage (env := sample_env 0 0)
                       (mk_tins (vp_umm sample_pool)) (mk_rec 1%N uuid_a))
                    (mk_container uuid_a 0 2%N)) as (tins' & Hrun & Hlog & _).
    + simpl. unfold UMMID_NULL. lia.
    + reflexivity.
    + exists tins'. split; [exact Hrun|exact Hlog].
Defined.

(** In destroy the finalizer runs inside the transaction, before the
    delete that triggers the free callback. *)
Example vos_co_destroy_call_order :
  exists st' vpool',
    vos_co_destroy (env := sample_env 0 0) sample_state 7%N uuid_a = Returned (0, st') /\
    st_pools st' !! 7%N = Some vpool' /\
    umm_log (vp_umm vpool') =
      [EvTreeLookup uuid_a; EvTxBegin; EvOiDestroy 2%N 0; EvTreeDelete uuid_a;
       EvFree 2%N; EvFree 1%N; EvTxCommit] /\
    vp_cont_root vpool' = [mk_rec 3%N uuid_c].
Proof. eexists _, _. repeat split; reflexivity. Qed.

(** The object-index initializer fails with -2003 while the tree inserts
    [uuid_a] with a record whose id is still null: the callback returns
    -2003, and the container record (id 1) and the object index (id 2) it
    allocated are still in the heap; the log shows the two allocations and
    no release. *)
Example vc_rec_alloc_init_failure_leaks :
  exists tins' val' rec',
    vc_rec_alloc (env := sample_env (-2003) 0) (mk_tins (mk_umm ∅ 4 []))
      (daos_iov_set uuid_a sizeof_uuid)
      (daos_iov_set (mk_val_buf 0%N 7%N) sizeof_vc_val_buf)
      (mk_rec UMMID_NULL uuid_a) = Returned (- 2003, tins', val', rec') /\
    umm_heap (ti_umm tins') !! 1%N = Some (ObjContainer (mk_container uuid_a 0 2%N)) /\
    umm_heap (ti_umm tins') !! 2%N = Some (ObjIndex zeroed_index) /\
    umm_log (ti_umm tins') = [EvAlloc 1%N; EvAlloc 2%N; EvOiCreate 2%N (- 2003)] /\
    umm_avail (ti_umm tins') = 2%nat.
Proof. eexists _, _, _. repeat split; reflexivity. Qed.

Lemma vc_rec_alloc_failure_frees_nothing_witness :
  exists tins' val' rec',
    vc_rec_alloc (env := sample_env (-2003) 0) (mk_tins (mk_umm ∅ 4 []))
      (daos_iov_set uuid_a sizeof_uuid)
      (daos_iov_set (mk_val_buf 0%N 7%N) sizeof_vc_val_buf)
      (mk_rec UMMID_NULL uuid_a) = Returned (- 2003, tins', val', rec') /\
    (forall id, EvFree id ∉ umm_log (ti_umm tins')) /\
    (exists c, umm_heap (ti_umm tins') !! 1%N = Some (ObjContainer c)).
Proof.
  eexists _, _, _. split; [reflexivity|].
  edestruct (vc_rec_alloc_failure_frees_nothing (env := sample_env (-2003) 0)
               (mk_tins (mk_umm ∅ 4 [])) (daos_iov_set uuid_a sizeof_uuid)
               (daos_iov_set (mk_val_buf 0%N 7%N) sizeof_vc_val_buf)
               (mk_rec UMMID_NULL uuid_a) (- 2003))
    as (Hfree & _ & Hrec).
  - reflexivity.
  - reflexivity.
  - lia.
  - split.
    + intros id Hin. apply Hfree in Hin. simpl in Hin. by apply elem_of_nil in Hin.
    + apply Hrec. simpl. lia.
Defined.

(** The same when the object index cannot be allocated. *)
Example vc_rec_alloc_index_nomem_leaks :
  exists tins' val' rec',
    vc_rec_alloc (env := sample_env 0 0) (mk_tins (mk_umm ∅ 1 []))
      (daos_iov_set uuid_a sizeof_uuid)
      (daos_iov_set (mk_val_buf 0%N 7%N) sizeof_vc_val_buf)
      (mk_rec UMMID_NULL uuid_a) = Returned (- 2009, tins', val', rec') /\
    umm_heap (ti_umm tins') !! 1%N = Some (ObjContainer (mk_container uuid_a 0 0%N)) /\
    umm_log (ti_umm tins') = [EvAlloc 1%N].
Proof. eexists _, _, _. repeat split; reflexivity. Qed.

(** A successful create, for comparison. *)
Example vos_co_create_fresh :
  exists st' vpool',
    vos_co_create (env := sample_env 0 0) sample_state 7%N uuid_b = Returned (0, st') /\
    st_pools st' !! 7%N = Some vpool' /\
    vp_cont_root vpool' = [mk_rec 1%N uuid_a; mk_rec 5%N uuid_b; mk_rec 3%N uuid_c] /\
    umm_heap (vp_umm vpool') !! 5%N = Some (ObjContainer (mk_container uuid_b 0 6%N)) /\
    umm_heap (vp_umm vpool') !! 6%N = Some (ObjIndex (mk_oi 1)).
Proof. eexists _, _. repeat split; reflexivity. Qed.

Lemma vos_co_create_existing_witness :
  vos_hdl2pool sample_state 7%N = Some sample_pool /\
  exists st',
    vos_co_create (env := sample_env 0 0) sample_state 7%N uuid_a = Returned (- 2004, st').
Proof.
  split; [reflexivity|].
  destruct (vos_co_create_existing (env := sample_env 0 0) sample_state 7%N uuid_a sample_pool)
    as (st' & vpool' & Hrun & _).
  - reflexivity.
  - repeat constructor.
  - exists (mk_rec 1%N uuid_a). split; [left|reflexivity].
  - exists st'. exact Hrun.
Defined.

Lemma vos_co_destroy_busy_or_missing_witness :
  vos_co_destroy (env := sample_env 0 0) sample_state_open 7%N uuid_a =
    Returned (- 2012, sample_state_open) /\
  exists st',
    vos_co_destroy (env := sample_env 0 0) sample_state 7%N uuid_b = Returned (- 2005, st').
Proof.
  split.
  - apply (proj1 (vos_co_destroy_busy_or_missing (env := sample_env 0 0)
                    sample_state_open 7%N uuid_a sample_pool eq_refl) sample_hdl).
    reflexivity.
  - destruct (proj2 (vos_co_destroy_busy_or_missing (env := sample_env 0 0)
                       sample_state 7%N uuid_b sample_pool eq_refl))
      as (st' & vpool' & Hrun & _).
    + reflexivity.
    + reflexivity.
    + exists st'. exact Hrun.
Defined.

Lemma vos_co_open_cached_witness :
  st_hhash sample_state_open !! uuid_a = Some sample_hdl /\
  exists st',
    vos_co_open (env := sample_env 0 0) sample_state_open 7%N uuid_a =
      Returned (0, st', Some uuid_a) /\
    st_hhash st' !! uuid_a = Some (hdl_set_ref sample_hdl 2) /\
    st_pools st' = st_pools sample_state_open.
Proof.
  split; [reflexivity|].
  destruct (vos_co_open_cached (env := sample_env 0 0) sample_state_open 7%N uuid_a
              sample_pool sample_hdl) as (st' & Hrun & _ & Href & Hpools & _).
  - reflexivity.
  - reflexivity.
  - exists st'. split; [exact Hrun|]. split; [exact Href|exact Hpools].
Defined.

(** C8 (as stated) fails.  The initializer fails with -2003 during create:
    the transaction is aborted with cause [ENOMEM] (12), and create returns
    -2003, the code of the insert, not the translation of the abort cause
    (-2007 in this environment). *)
Lemma vos_co_create_returns_insert_code :
  exists rc st' vpool',
    vos_co_create (env := sample_env (-2003) 0) (fresh_state 4) 7%N uuid_a =
      Returned (rc, st') /\
    rc = - 2003 /\
    rc <> umem_tx_errno (vos_env := sample_env (-2003) 0) (ENOMEM (vos_env := sample_env (-2003) 0)) /\
    st_pools st' !! 7%N = Some vpool' /\
    last (umm_log (vp_umm vpool')) = Some (EvTxAbort 12).
Proof.
  eexists _, _, _. split; [reflexivity|]. split; [reflexivity|].
  split; [vm_compute; discriminate|]. split; reflexivity.
Qed.

Lemma vos_co_create_insert_failure_witness :
  exists st' vpool',
    vos_co_create (env := sample_env (-2003) 0) (fresh_state 4) 7%N uuid_a =
      Returned (- 2003, st') /\
    vos_hdl2pool st' 7%N = Some vpool' /\
    umm_heap (vp_umm vpool') = ∅ /\
    vp_cont_root vpool' = [].
Proof.
  edestruct (vos_co_create_insert_failure (env := sample_env (-2003) 0)
               (fresh_state 4) 7%N uuid_a (empty_pool 4))
    as (st' & vpool' & Hrun & Hpool & _ & Hheap & _ & Hroot).
  - reflexivity.
  - reflexivity.
  - reflexivity.
  - simpl. lia.
  - exists st', vpool'. split; [exact Hrun|]. split; [exact Hpool|].
    split; [exact Hheap|exact Hroot].
Defined.

Lemma vos_co_iter_probe_position_witness :
  vos_co_iter_probe (env := sample_env 0 0) sample_state (sample_iter CursorNone) None =
    Returned (0, sample_iter (CursorAt 0)) /\
  exists i e,
    vos_co_iter_probe (env := sample_env 0 0) sample_state (sample_iter CursorNone)
      (Some uuid_b) = Returned (0, sample_iter (CursorAt i)) /\
    vp_cont_root sample_pool !! i = Some e /\
    hkey_le uuid_b (rec_hkey e).
Proof.
  pose proof (vos_co_iter_probe_position (env := sample_env 0 0) sample_state
                (sample_iter CursorNone) sample_pool CursorNone eq_refl eq_refl eq_refl)
    as H.
  destruct H as [Hfirst Hge].
  - repeat constructor.
  - split.
    + apply (Hfirst (mk_rec 1%N uuid_a) [mk_rec 3%N uuid_c]). reflexivity.
    + destruct (Hge uuid_b (mk_rec 3%N uuid_c)) as (i & e & Hrun & Hi & Hle & _).
      * right. left.
      * vm_compute. discriminate.
      * exists i, e. split; [exact Hrun|]. split; [exact Hi|exact Hle].
Defined.

(** Resuming at the anchor [uuid_b] lands on [uuid_c], the record after it. *)
Example vos_co_iter_probe_resume :
  vos_co_iter_probe (env := sample_env 0 0) sample_state (sample_iter CursorNone)
    (Some uuid_b) = Returned (0, sample_iter (CursorAt 1)).
Proof. reflexivity. Qed.

Lemma vos_co_iter_fetch_failure_clears_witness :
  vos_co_iter_fetch (env := sample_env 0 0) sample_state (sample_iter (CursorAt 2))
    (mk_entry uuid_b) None = Returned (- 2005, mk_entry uuid_clear, None) /\
  ie_couuid (mk_entry uuid_clear) = uuid_clear.
Proof.
  split; [reflexivity|].
  apply (vos_co_iter_fetch_failure_clears (env := sample_env 0 0) sample_state
           (sample_iter (CursorAt 2)) (mk_entry uuid_b) None (- 2005)
           (mk_entry uuid_clear) None).
  - reflexivity.
  - lia.
Defined.

(** A fetch that succeeds returns the identifier of the record. *)
Example vos_co_iter_fetch_positioned :
  vos_co_iter_fetch (env := sample_env 0 0) sample_state (sample_iter (CursorAt 1))
    (mk_entry uuid_b) None = Returned (0, mk_entry uuid_c, Some uuid_c).
Proof. reflexivity. Qed.

(** * Further properties *)

(** ** The allocation and free callbacks *)

Section MoreCallbackFacts.
Context `{env : vos_env}.

(** The state a successful allocation leaves, spelled out. *)
Lemma vc_rec_alloc_ok (tins : btr_instance) (key_iov : daos_iov_t (list byte))
    (val_iov : daos_iov_t vc_val_buf) (rec : btr_record) (n : nat)
    (oi' : vos_object_index) :
  iov_len key_iov = sizeof_uuid ->
  umm_avail (ti_umm tins) = S (S n) ->
  vos_oi_create (vc_vpool (iov_buf val_iov)) zeroed_index = (0, oi') ->
  exists cid oid,
    vc_rec_alloc tins key_iov val_iov rec =
      Returned (0,
                mk_tins (mk_umm
                  (<[oid := ObjIndex oi']>
                     (<[cid := ObjContainer (mk_container (uuid_copy (iov_buf key_iov)) 0 oid)]>
                        (umm_heap (ti_umm tins))))
                  n
                  (umm_log (ti_umm tins) ++ [EvAlloc cid; EvAlloc oid; EvOiCreate oid 0])),
                mk_iov (mk_val_buf cid (vc_vpool (iov_buf val_iov)))
                       (iov_buf_len val_iov) (iov_len val_iov),
                mk_rec cid (rec_hkey rec)) /\
    cid <> UMMID_NULL /\ oid <> UMMID_NULL /\ cid <> oid /\
    umm_heap (ti_umm tins) !! cid = None /\
    umm_heap (ti_umm tins) !! oid = None.
Proof.
  intros Hlen Havail Hoi.
  destruct tins as [[h avail log]]. simpl in *. subst avail.
  set (cid := umem_fresh h).
  set (h1 := <[cid := ObjContainer (mk_container (uuid_copy (iov_buf key_iov)) 0 UMMID_NULL)]> h).
  set (oid := umem_fresh h1).
  assert (Hcid : h !! cid = None) by apply umem_fresh_unused.
  assert (Hoid1 : h1 !! oid = None) by apply umem_fresh_unused.
  assert (Hne : cid <> oid).
  { intros Heq. rewrite <- Heq in Hoid1. unfold h1 in Hoid1.
    rewrite lookup_insert_eq in Hoid1. discriminate. }
  assert (Hoid : h !! oid = None).
  { unfold h1 in Hoid1. by rewrite lookup_insert_ne in Hoid1. }
  exists cid, oid. split; [|repeat split; try done].
  - unfold vc_rec_alloc. rewrite Hlen. rewrite Z.eqb_refl. simpl.
    fold cid.
    assert (Hcn : TMMID_IS_NULL cid = false) by apply umem_fresh_not_null.
    rewrite Hcn.
    unfold umem_container, umem_id2ptr. simpl. rewrite lookup_insert_eq. simpl.
    rewrite insert_insert_eq. fold h1. fold oid.
    assert (Hnn : TMMID_IS_NULL oid = false) by apply umem_fresh_not_null.
    rewrite Hnn. simpl.
    unfold umem_index, umem_id2ptr. simpl.
    rewrite lookup_insert_ne by done. rewrite lookup_insert_eq. simpl.
    rewrite Hoi. simpl. unfold umm_emit, umem_store. simpl.
    match goal with
    | |- context [mk_umm ?m _ _] =>
        assert (Hheap : m = <[oid := ObjIndex oi']>
                  (<[cid := ObjContainer
                              (mk_container (uuid_copy (iov_buf key_iov)) 0 oid)]> h))
    end.
    { apply map_eq. intros k. unfold h1. rewrite !lookup_insert.
      repeat case_decide; congruence. }
    rewrite Hheap. rewrite <- !app_assoc. reflexivity.
  - apply TMMID_IS_NULL_false. apply umem_fresh_not_null.
  - apply TMMID_IS_NULL_false. apply umem_fresh_not_null.
Qed.

(** X1.  With room for two more objects and an initializer that succeeds,
    the allocation callback returns 0.  The tree record gets a non-null id
    that was not in use and keeps its digest; the view points at that id;
    the heap holds there a container record that carries the first 16
    bytes of the key and owns, under a second non-null id, the initialized
    object index; every object the heap held before is still there,
    unchanged, and the budget went down by two. *)
Theorem vc_rec_alloc_success (tins : btr_instance) (key_iov : daos_iov_t (list byte))
    (val_iov : daos_iov_t vc_val_buf) (rec : btr_record) (n : nat)
    (oi' : vos_object_index) :
  iov_len key_iov = sizeof_uuid ->
  umm_avail (ti_umm tins) = S (S n) ->
  vos_oi_create (vc_vpool (iov_buf val_iov)) zeroed_index = (0, oi') ->
  exists tins' val' rec' oid,
    vc_rec_alloc tins key_iov val_iov rec = Returned (0, tins', val', rec') /\
    rec_mmid rec' <> UMMID_NULL /\
    rec_hkey rec' = rec_hkey rec /\
    umm_heap (ti_umm tins) !! rec_mmid rec' = None /\
    vc_co (iov_buf val') = rec_mmid rec' /\
    oid <> UMMID_NULL /\
    umm_heap (ti_umm tins') !! rec_mmid rec' =
      Some (ObjContainer (mk_container (uuid_copy (iov_buf key_iov)) 0 oid)) /\
    umm_heap (ti_umm tins') !! oid = Some (ObjIndex oi') /\
    (forall id, is_Some (umm_heap (ti_umm tins) !! id) ->
                umm_heap (ti_umm tins') !! id = umm_heap (ti_umm tins) !! id) /\
    umm_avail (ti_umm tins') = n.
Proof.
  intros Hlen Havail Hoi.
  destruct (vc_rec_alloc_ok tins key_iov val_iov rec n oi' Hlen Havail Hoi)
    as (cid & oid & Hrun & Hc & Ho & Hne & Hhc & Hho).
  rewrite Hrun. eexists _, _, _, oid. split; [reflexivity|]. simpl.
  repeat split; try done.
  - rewrite lookup_insert_ne by done. apply lookup_insert_eq.
  - apply lookup_insert_eq.
  - intros id [x Hx].
    rewrite lookup_insert_ne by congruence. rewrite lookup_insert_ne by congruence.
    reflexivity.
Qed.

(** The code of the allocation callback, by cases on the budget. *)
Lemma vc_rec_alloc_code (tins : btr_instance) (key_iov : daos_iov_t (list byte))
    (val_iov : daos_iov_t vc_val_buf) (rec : btr_record)
    (rc : Z) (tins' : btr_instance) (val' : daos_iov_t vc_val_buf) (rec' : btr_record) :
  vc_rec_alloc tins key_iov val_iov rec = Returned (rc, tins', val', rec') ->
  ((umm_avail (ti_umm tins) < 2)%nat -> rc = - DER_NOMEM) /\
  ((2 <= umm_avail (ti_umm tins))%nat ->
   rc = fst (vos_oi_create (vc_vpool (iov_buf val_iov)) zeroed_index)).
Proof.
  intros Hrun. unfold vc_rec_alloc in Hrun.
  destruct (D_ASSERT _); simpl in Hrun; [|discriminate].
  destruct tins as [[h avail log]]. simpl in *.
  unfold umem_znew at 1 in Hrun. simpl in Hrun.
  destruct avail as [|avail]; simpl in Hrun.
  { injection Hrun as <- <- <- <-. split; [done|lia]. }
  rewrite umem_fresh_not_null in Hrun.
  unfold umem_container, umem_id2ptr in Hrun. simpl in Hrun.
  rewrite lookup_insert_eq in Hrun. simpl in Hrun.
  set (cid := umem_fresh h) in *.
  unfold umem_znew in Hrun. simpl in Hrun.
  destruct avail as [|avail]; simpl in Hrun.
  - der_facts.
    replace (- DER_NOMEM =? 0) with false in Hrun by (symmetry; apply Z.eqb_neq; lia).
    simpl in Hrun.
    destruct (vc_rec_free _ rec) as [[rc1 tins1]|]; simpl in Hrun; [|discriminate].
    injection Hrun as <- <- <- <-. split; [done|lia].
  - rewrite insert_insert_eq in Hrun.
    set (h1 := <[cid := _]> h) in *.
    set (oid := umem_fresh h1) in *.
    assert (Hnn : TMMID_IS_NULL oid = false) by apply umem_fresh_not_null.
    assert (Hne : cid <> oid).
    { intros Heq. pose proof (umem_fresh_unused h1) as Hu. fold oid in Hu.
      rewrite <- Heq in Hu. unfold h1 in Hu. rewrite lookup_insert_eq in Hu. discriminate. }
    rewrite Hnn in Hrun. simpl in Hrun.
    unfold umem_index, umem_id2ptr in Hrun. simpl in Hrun.
    rewrite lookup_insert_ne in Hrun by done.
    rewrite lookup_insert_eq in Hrun. simpl in Hrun.
    destruct (vos_oi_create (vc_vpool (iov_buf val_iov)) zeroed_index) as [rc1 oi1].
    simpl in *.
    destruct (rc1 =? 0) eqn:Hrc1; simpl in Hrun; rewrite Hrc1 in Hrun; simpl in Hrun.
    + injection Hrun as <- <- <- <-. split; [lia|done].
    + destruct (vc_rec_free _ rec) as [[rc2 tins2]|]; simpl in Hrun; [|discriminate].
      injection Hrun as <- <- <- <-. split; [lia|done].
Qed.

(** X2.  Whenever the allocation callback returns, its code is determined
    by the allocator budget and the initializer, whatever record the tree
    passed in: [-DER_NOMEM] when the pool cannot hold two more objects,
    otherwise the code the object-index initializer returned for the
    zeroed index; so it returns 0 exactly when there was room for two
    objects and the initializer returned 0. *)
Theorem vc_rec_alloc_return_code (tins : btr_instance) (key_iov : daos_iov_t (list byte))
    (val_iov : daos_iov_t vc_val_buf) (rec : btr_record)
    (rc : Z) (tins' : btr_instance) (val' : daos_iov_t vc_val_buf) (rec' : btr_record) :
  vc_rec_alloc tins key_iov val_iov rec = Returned (rc, tins', val', rec') ->
  ((umm_avail (ti_umm tins) < 2)%nat -> rc = - DER_NOMEM) /\
  ((2 <= umm_avail (ti_umm tins))%nat ->
   rc = fst (vos_oi_create (vc_vpool (iov_buf val_iov)) zeroed_index)) /\
  (rc = 0 <->
   (2 <= umm_avail (ti_umm tins))%nat /\
   fst (vos_oi_create (vc_vpool (iov_buf val_iov)) zeroed_index) = 0).
Proof.
  intros Hrun. der_facts.
  destruct (vc_rec_alloc_code _ _ _ _ _ _ _ _ Hrun) as [Hlow Hhigh].
  split; [exact Hlow|]. split; [exact Hhigh|].
  destruct (le_lt_dec 2 (umm_avail (ti_umm tins))) as [Hge|Hlt].
  - specialize (Hhigh Hge). split.
    + intros ->. by split.
    + intros [_ Hzero]. by rewrite Hhigh.
  - specialize (Hlow Hlt). split.
    + intros ->. lia.
    + intros [Hge _]. lia.
Qed.

(** X3.  Allocation and free are inverse on the heap: after a successful
    allocation, the free callback applied to the record the allocation
    filled in returns 0 and gives back exactly the heap and the allocator
    budget the allocation started from. *)
Theorem vc_rec_alloc_free_round_trip (tins : btr_instance)
    (key_iov : daos_iov_t (list byte)) (val_iov : daos_iov_t vc_val_buf)
    (rec : btr_record) (n : nat) (oi' : vos_object_index) :
  iov_len key_iov = sizeof_uuid ->
  umm_avail (ti_umm tins) = S (S n) ->
  vos_oi_create (vc_vpool (iov_buf val_iov)) zeroed_index = (0, oi') ->
  exists tins1 val1 rec1 tins2,
    vc_rec_alloc tins key_iov val_iov rec = Returned (0, tins1, val1, rec1) /\
    vc_rec_free tins1 rec1 = Returned (0, tins2) /\
    umm_heap (ti_umm tins2) = umm_heap (ti_umm tins) /\
    umm_avail (ti_umm tins2) = umm_avail (ti_umm tins).
Proof.
  intros Hlen Havail Hoi.
  destruct (vc_rec_alloc_ok tins key_iov val_iov rec n oi' Hlen Havail Hoi)
    as (cid & oid & Hrun & Hc & Ho & Hne & Hhc & Hho).
  rewrite Hrun. eexists _, _, _, _. split; [reflexivity|].
  unfold vc_rec_free. simpl.
  apply TMMID_IS_NULL_false in Hc, Ho. rewrite Hc.
  unfold umem_container, umem_id2ptr. simpl.
  rewrite lookup_insert_ne by done. rewrite lookup_insert_eq. simpl.
  rewrite Ho. simpl. split; [reflexivity|]. simpl. split; [|by rewrite Havail].
  rewrite delete_insert_eq. rewrite delete_insert_ne by done.
  rewrite delete_insert_eq. rewrite (delete_id _ oid) by done. by apply delete_id.
Qed.

End MoreCallbackFacts.

(** ** Lookups in the ordered directory *)

Lemma btr_find_cons (k : list byte) (r : btr_record) (root : list btr_record) :
  btr_find k (r :: root) = if decide (rec_hkey r = k) then Some r else btr_find k root.
Proof.
  unfold btr_find. simpl. case_decide; [done|].
  destruct (list_find _ root) as [[i x]|]; done.
Qed.

Lemma btr_find_insert_other (k : list byte) (rec : btr_record) (root : list btr_record) :
  k <> rec_hkey rec -> btr_find k (btr_insert rec root) = btr_find k root.
Proof.
  intros Hk. induction root as [|r root IH]; simpl.
  - rewrite btr_find_cons. case_decide; [congruence|done].
  - destruct (hkey_cmp (rec_hkey rec) (rec_hkey r));
      rewrite !btr_find_cons; repeat case_decide; try congruence.
    all: rewrite ?btr_find_cons; repeat case_decide; congruence.
Qed.

Lemma btr_find_insert_same (rec : btr_record) (root : list btr_record) :
  btr_find (rec_hkey rec) root = None ->
  btr_find (rec_hkey rec) (btr_insert rec root) = Some rec.
Proof.
  induction root as [|r root IH]; simpl; intros Hnone.
  - rewrite btr_find_cons. by case_decide.
  - rewrite btr_find_cons in Hnone. case_decide; [discriminate|].
    destruct (hkey_cmp (rec_hkey rec) (rec_hkey r));
      rewrite !btr_find_cons; repeat case_decide; try congruence.
    by apply IH.
Qed.

Lemma btr_find_remove_same (k : list byte) (root : list btr_record) :
  btr_find k (btr_remove k root) = None.
Proof.
  unfold btr_remove. induction root as [|r root IH]; [done|].
  rewrite filter_cons. case_decide; [|done].
  rewrite btr_find_cons. by case_decide.
Qed.

Lemma btr_find_remove_other (k k' : list byte) (root : list btr_record) :
  k <> k' -> btr_find k (btr_remove k' root) = btr_find k root.
Proof.
  intros Hk. unfold btr_remove. induction root as [|r root IH]; [done|].
  rewrite filter_cons. case_decide.
  - rewrite !btr_find_cons. by case_decide.
  - rewrite btr_find_cons. case_decide; [congruence|done].
Qed.

Lemma btr_remove_absent (k : list byte) (root : list btr_record) :
  btr_find k root = None -> btr_remove k root = root.
Proof.
  unfold btr_remove. induction root as [|r root IH]; [done|].
  rewrite btr_find_cons. case_decide; [discriminate|]. intros Hnone.
  rewrite filter_cons_True by done. f_equal. by apply IH.
Qed.

Lemma btr_remove_insert (rec : btr_record) (root : list btr_record) :
  btr_find (rec_hkey rec) root = None ->
  btr_remove (rec_hkey rec) (btr_insert rec root) = root.
Proof.
  induction root as [|r root IH]; simpl; intros Hnone.
  - unfold btr_remove. by rewrite filter_cons_False by (intros H; by apply H).
  - rewrite btr_find_cons in Hnone. case_decide; [discriminate|].
    assert (Hdrop : btr_remove (rec_hkey rec) (rec :: r :: root) = r :: root).
    { unfold btr_remove. rewrite filter_cons_False by (intros H'; by apply H').
      fold (btr_remove (rec_hkey rec) (r :: root)).
      apply btr_remove_absent. rewrite btr_find_cons. by case_decide. }
    destruct (hkey_cmp (rec_hkey rec) (rec_hkey r)); try exact Hdrop.
    unfold btr_remove. rewrite filter_cons_True by done. f_equal. by apply IH.
Qed.

Lemma btr_remove_elem (k : list byte) (r : btr_record) (root : list btr_record) :
  r ∈ btr_remove k root <-> r ∈ root /\ rec_hkey r <> k.
Proof. unfold btr_remove. rewrite list_elem_of_filter. tauto. Qed.

Lemma btr_remove_sorted (k : list byte) (root : list btr_record) :
  btr_sorted root -> btr_sorted (btr_remove k root).
Proof.
  unfold btr_sorted, btr_remove. intros Hs.
  induction Hs as [|r root Hs IH Hall]; [constructor|].
  rewrite filter_cons. case_decide; [|done].
  constructor; [done|]. rewrite Forall_forall in Hall. apply Forall_forall.
  intros r' Hr'. apply list_elem_of_filter in Hr' as [_ Hr']. by apply Hall.
Qed.

(** ** Create *)

Section CreateFacts.
Context `{env : vos_env}.

Lemma uuid_copy_idemp' (u : uuid_t) : uuid_copy (uuid_copy u) = uuid_copy u.
Proof. unfold uuid_copy. by rewrite take_take. Qed.

Lemma pool_durable_emit (vpool : vos_pool) (e : event) :
  pool_durable (pool_emit vpool e) = pool_durable vpool.
Proof. reflexivity. Qed.

Lemma same_durable_refl (st : vos_state) : same_durable st st.
Proof. by intros poh. Qed.

Lemma same_durable_trans (st1 st2 st3 : vos_state) :
  same_durable st1 st2 -> same_durable st2 st3 -> same_durable st1 st3.
Proof. intros H12 H23 poh. by rewrite H23, H12. Qed.

Lemma same_durable_set_pool (st : vos_state) (poh : N) (vpool vpool' : vos_pool) :
  st_pools st !! poh = Some vpool ->
  pool_durable vpool' = pool_durable vpool ->
  same_durable st (st_set_pool st poh vpool').
Proof.
  intros Hpool Heq poh'. simpl. destruct (decide (poh = poh')) as [<-|Hne].
  - rewrite lookup_insert_eq, Hpool. simpl. by rewrite Heq.
  - by rewrite lookup_insert_ne.
Qed.

Lemma same_durable_pools (st st' st'' : vos_state) :
  st_pools st'' = st_pools st' -> same_durable st st' -> same_durable st st''.
Proof. intros Heq H poh. rewrite Heq. apply H. Qed.

Lemma same_durable_set_hhash (st : vos_state) (hh : gmap (list byte) vc_hdl) :
  same_durable st (st_set_hhash st hh).
Proof. by intros poh. Qed.

(** A call of the allocation callback that returns 0 had room for two
    objects and an initializer that succeeded. *)
Lemma vc_rec_alloc_zero_inv (tins : btr_instance) (key_iov : daos_iov_t (list byte))
    (val_iov : daos_iov_t vc_val_buf) (rec : btr_record)
    (tins' : btr_instance) (val' : daos_iov_t vc_val_buf) (rec' : btr_record) :
  vc_rec_alloc tins key_iov val_iov rec = Returned (0, tins', val', rec') ->
  iov_len key_iov = sizeof_uuid /\
  exists n oi',
    umm_avail (ti_umm tins) = S (S n) /\
    vos_oi_create (vc_vpool (iov_buf val_iov)) zeroed_index = (0, oi').
Proof.
  intros Hrun.
  assert (Hlen : iov_len key_iov = sizeof_uuid).
  { unfold vc_rec_alloc, D_ASSERT in Hrun.
    destruct (iov_len key_iov =? sizeof_uuid) eqn:E; [by apply Z.eqb_eq|discriminate]. }
  split; [done|]. der_facts.
  destruct (vc_rec_alloc_code _ _ _ _ _ _ _ _ Hrun) as [Hlow Hhigh].
  destruct (umm_avail (ti_umm tins)) as [|[|n]] eqn:Havail.
  - specialize (Hlow ltac:(lia)). lia.
  - specialize (Hlow ltac:(lia)). lia.
  - exists n. specialize (Hhigh ltac:(lia)).
    destruct (vos_oi_create _ zeroed_index) as [rc1 oi1]. simpl in Hhigh. subst rc1.
    by exists oi1.
Qed.

(** The state a successful create leaves, spelled out. *)
Lemma vos_co_create_ok (st : vos_state) (poh : N) (co_uuid : uuid_t)
    (vpool : vos_pool) (n : nat) (oi' : vos_object_index) :
  vos_hdl2pool st poh = Some vpool ->
  btr_find (uuid_copy co_uuid) (vp_cont_root vpool) = None ->
  umm_avail (vp_umm vpool) = S (S n) ->
  vos_oi_create poh zeroed_index = (0, oi') ->
  exists cid oid log',
    vos_co_create st poh co_uuid =
      Returned (0, st_set_pool st poh
                     (mk_pool
                        (mk_umm
                           (<[oid := ObjIndex oi']>
                              (<[cid := ObjContainer
                                          (mk_container (uuid_copy co_uuid) 0 oid)]>
                                 (umm_heap (vp_umm vpool))))
                           n log')
                        (btr_insert (mk_rec cid (uuid_copy co_uuid)) (vp_cont_root vpool)))) /\
    cid <> UMMID_NULL /\ oid <> UMMID_NULL /\ cid <> oid /\
    umm_heap (vp_umm vpool) !! cid = None /\
    umm_heap (vp_umm vpool) !! oid = None.
Proof.
  intros Hpool Hfind Havail Hoi. der_facts.
  unfold vos_co_create. rewrite Hpool.
  rewrite (vos_co_tree_lookup_missing _ _ _ Hfind). simpl.
  replace (- DER_NONEXIST =? 0) with false by (symmetry; apply Z.eqb_neq; lia).
  unfold tx_run, dbtree_update. cbn [to_hkey_gen vct_ops].
  rewrite vc_hkey_gen_ukey. simpl. rewrite Hfind. 
  match goal with
  | |- context [vc_rec_alloc ?t ?k ?v ?r] =>
      destruct (vc_rec_alloc_ok t k v r n oi' eq_refl Havail Hoi)
        as (cid & oid & Hrun & Hc & Ho & Hne & Hhc & Hho)
  end.
  rewrite Hrun. simpl. rewrite uuid_copy_idemp'.
  exists cid, oid. eexists. split; [reflexivity|]. done.
Qed.

(** X4.  Create of an identifier the directory does not hold, in a pool
    with room for two objects and with an initializer that succeeds,
    returns 0.  Afterwards a lookup of the identifier finds a record whose
    id resolves to a container record carrying the identifier and owning a
    live, initialized object index; lookups of every other digest and all
    objects the heap held before are as they were; the handle cache is
    untouched. *)
Theorem vos_co_create_success (st : vos_state) (poh : N) (co_uuid : uuid_t)
    (vpool : vos_pool) (n : nat) (oi' : vos_object_index) :
  vos_hdl2pool st poh = Some vpool ->
  btr_find (uuid_copy co_uuid) (vp_cont_root vpool) = None ->
  umm_avail (vp_umm vpool) = S (S n) ->
  vos_oi_create poh zeroed_index = (0, oi') ->
  exists st' vpool' rec oid,
    vos_co_create st poh co_uuid = Returned (0, st') /\
    vos_hdl2pool st' poh = Some vpool' /\
    st_hhash st' = st_hhash st /\
    btr_find (uuid_copy co_uuid) (vp_cont_root vpool') = Some rec /\
    rec_hkey rec = uuid_copy co_uuid /\
    rec_mmid rec <> UMMID_NULL /\
    oid <> UMMID_NULL /\
    umm_heap (vp_umm vpool') !! rec_mmid rec =
      Some (ObjContainer (mk_container (uuid_copy co_uuid) 0 oid)) /\
    umm_heap (vp_umm vpool') !! oid = Some (ObjIndex oi') /\
    (forall k, k <> uuid_copy co_uuid ->
               btr_find k (vp_cont_root vpool') = btr_find k (vp_cont_root vpool)) /\
    (forall id, is_Some (umm_heap (vp_umm vpool) !! id) ->
                umm_heap (vp_umm vpool') !! id = umm_heap (vp_umm vpool) !! id) /\
    umm_avail (vp_umm vpool') = n.
Proof.
  intros Hpool Hfind Havail Hoi.
  destruct (vos_co_create_ok st poh co_uuid vpool n oi' Hpool Hfind Havail Hoi)
    as (cid & oid & log' & Hrun & Hc & Ho & Hne & Hhc & Hho).
  rewrite Hrun. eexists _, _, (mk_rec cid (uuid_copy co_uuid)), oid.
  split; [reflexivity|].
  split; [unfold vos_hdl2pool; simpl; apply lookup_insert_eq|]. simpl.
  split; [reflexivity|].
  split; [by apply (btr_find_insert_same (mk_rec cid (uuid_copy co_uuid)))|].
  split; [reflexivity|]. split; [exact Hc|]. split; [exact Ho|].
  split; [rewrite lookup_insert_ne by done; apply lookup_insert_eq|].
  split; [apply lookup_insert_eq|].
  split; [intros k Hk; by apply btr_find_insert_other|].
  split; [|reflexivity].
  intros id [x Hx].
  rewrite lookup_insert_ne by congruence. rewrite lookup_insert_ne by congruence.
  reflexivity.
Qed.

(** X5.  Create is all or nothing.  Whatever it returns, it leaves the
    handle cache and the volatile memory alone; and whenever it returns a
    non-zero code (unknown pool handle, identifier already there, failed
    insert) the heap, the allocator budget and the directory of every pool
    are exactly as before the call. *)
Theorem vos_co_create_atomic (st : vos_state) (poh : N) (co_uuid : uuid_t)
    (rc : Z) (st' : vos_state) :
  vos_co_create st poh co_uuid = Returned (rc, st') ->
  st_hhash st' = st_hhash st /\
  st_dram st' = st_dram st /\
  (rc <> 0 -> same_durable st st').
Proof.
  unfold vos_co_create. destruct (vos_hdl2pool st poh) as [vpool|] eqn:Hpool.
  2:{ intros [= <- <-]. split; [done|]. split; [done|]. intros _. apply same_durable_refl. }
  destruct (btr_find (uuid_copy co_uuid) (vp_cont_root vpool)) as [rec|] eqn:Hfind.
  - rewrite (vos_co_tree_lookup_found _ _ _ _ Hfind). simpl.
    intros [= <- <-]. split; [done|]. split; [done|]. intros _.
    by apply (same_durable_set_pool _ _ vpool).
  - rewrite (vos_co_tree_lookup_missing _ _ _ Hfind). simpl. der_facts.
    replace (- DER_NONEXIST =? 0) with false by (symmetry; apply Z.eqb_neq; lia).
    unfold tx_run, dbtree_update. cbn [to_hkey_gen vct_ops].
    rewrite vc_hkey_gen_ukey. simpl. rewrite Hfind.
    destruct (vc_rec_alloc _ _ _ _) as [[[[rc1 tins1] val1] rec1]|]; simpl; [|discriminate].
    destruct (rc1 =? 0) eqn:Hrc1; simpl.
    + intros [= <- <-]. split; [done|]. split; [done|]. intros Hne. by contradiction Hne.
    + rewrite Hrc1. simpl. intros [= <- <-]. split; [done|]. split; [done|]. intros _.
      by apply (same_durable_set_pool _ _ vpool).
Qed.

(** X6.  A second create of the same identifier is rejected: right after a
    successful create, create of that identifier returns [-DER_EXIST] and
    leaves the heap, the budget and the directory of every pool as the
    first create left them. *)
Theorem vos_co_create_twice (st : vos_state) (poh : N) (co_uuid : uuid_t)
    (vpool : vos_pool) (n : nat) (oi' : vos_object_index) :
  vos_hdl2pool st poh = Some vpool ->
  btr_find (uuid_copy co_uuid) (vp_cont_root vpool) = None ->
  umm_avail (vp_umm vpool) = S (S n) ->
  vos_oi_create poh zeroed_index = (0, oi') ->
  exists st1 st2,
    vos_co_create st poh co_uuid = Returned (0, st1) /\
    vos_co_create st1 poh co_uuid = Returned (- DER_EXIST, st2) /\
    same_durable st1 st2.
Proof.
  intros Hpool Hfind Havail Hoi.
  destruct (vos_co_create_ok st poh co_uuid vpool n oi' Hpool Hfind Havail Hoi)
    as (cid & oid & log' & Hrun & _).
  rewrite Hrun. eexists _, _. split; [reflexivity|].
  unfold vos_co_create at 1. unfold vos_hdl2pool. simpl. rewrite lookup_insert_eq.
  rewrite (vos_co_tree_lookup_found _ _ _ (mk_rec cid (uuid_copy co_uuid))).
  2:{ simpl. by apply (btr_find_insert_same (mk_rec cid (uuid_copy co_uuid))). }
  simpl. split; [reflexivity|].
  eapply same_durable_set_pool; [simpl; apply lookup_insert_eq|reflexivity].
Qed.

(** X7.  Create keeps the directory well formed: if every record of the
    ordered directory resolved to a container record carrying its digest
    and owning a live object index before the call, the same holds after
    it, whatever create returned, and the directory is still in ascending
    digest order. *)
Theorem vos_co_create_keeps_wf (st : vos_state) (poh : N) (co_uuid : uuid_t)
    (vpool : vos_pool) (rc : Z) (st' : vos_state) :
  vos_hdl2pool st poh = Some vpool ->
  dir_wf vpool ->
  btr_sorted (vp_cont_root vpool) ->
  vos_co_create st poh co_uuid = Returned (rc, st') ->
  exists vpool',
    vos_hdl2pool st' poh = Some vpool' /\
    dir_wf vpool' /\
    btr_sorted (vp_cont_root vpool').
Proof.
  intros Hpool Hwf Hsorted Hrun.
  destruct (vos_co_create_sorted st poh co_uuid vpool rc st' Hpool Hsorted Hrun)
    as (vpool' & Hpool' & Hsorted').
  exists vpool'. split; [done|]. split; [|done].
  revert Hrun. unfold vos_co_create. rewrite Hpool.
  destruct (btr_find (uuid_copy co_uuid) (vp_cont_root vpool)) as [rec|] eqn:Hfind.
  - rewrite (vos_co_tree_lookup_found _ _ _ _ Hfind). simpl.
    intros [= <- <-]. unfold vos_hdl2pool in Hpool'. simpl in Hpool'.
    rewrite lookup_insert_eq in Hpool'. injection Hpool' as <-. exact Hwf.
  - rewrite (vos_co_tree_lookup_missing _ _ _ Hfind). simpl. der_facts.
    replace (- DER_NONEXIST =? 0) with false by (symmetry; apply Z.eqb_neq; lia).
    unfold tx_run, dbtree_update. cbn [to_hkey_gen vct_ops].
    rewrite vc_hkey_gen_ukey. simpl. rewrite Hfind.
    destruct (vc_rec_alloc _ _ _ _) as [[[[rc1 tins1] val1] rec1]|] eqn:Halloc; simpl;
      [|discriminate].
    destruct (rc1 =? 0) eqn:Hrc1; simpl.
    + apply Z.eqb_eq in Hrc1. subst rc1.
      destruct (vc_rec_alloc_zero_inv _ _ _ _ _ _ _ Halloc) as (Hlen & n & oi' & Havail & Hoi).
      destruct (vc_rec_alloc_ok _ _ _ (mk_rec UMMID_NULL (uuid_copy co_uuid)) n oi'
                  Hlen Havail Hoi)
        as (cid & oid & Hok & Hc & Ho & Hne & Hhc & Hho).
      rewrite Hok in Halloc. injection Halloc as <- <- <-.
      intros [= <- <-]. unfold vos_hdl2pool in Hpool'. simpl in Hpool'.
      rewrite lookup_insert_eq in Hpool'. injection Hpool' as <-.
      intros r Hr. simpl in Hr. apply btr_insert_elem in Hr as [->|Hr]; simpl.
      * split; [exact Hc|]. eexists _, _.
        split; [rewrite lookup_insert_ne by done; apply lookup_insert_eq|]. simpl.
        split; [apply uuid_copy_idemp'|]. split; [exact Ho|apply lookup_insert_eq].
      * destruct (Hwf r Hr) as (Hrn & c & oi & Hhr & Hid & Hon & Hho').
        simpl in Hhc, Hho.
        split; [exact Hrn|]. exists c, oi.
        split; [|split; [exact Hid|split; [exact Hon|]]].
        -- rewrite lookup_insert_ne by congruence. rewrite lookup_insert_ne by congruence.
           exact Hhr.
        -- rewrite lookup_insert_ne by congruence. rewrite lookup_insert_ne by congruence.
           exact Hho'.
    + rewrite Hrc1. simpl. intros [= <- <-]. unfold vos_hdl2pool in Hpool'. simpl in Hpool'.
      rewrite lookup_insert_eq in Hpool'. injection Hpool' as <-. exact Hwf.
Qed.

End CreateFacts.

(** ** Destroy *)

Section DestroyFacts.
Context `{env : vos_env}.

(** The state a successful destroy leaves, spelled out. *)
Lemma vos_co_destroy_ok (st : vos_state) (poh : N) (co_uuid : uuid_t)
    (vpool : vos_pool) (rec : btr_record) (c : vos_container)
    (oi oi' : vos_object_index) :
  vos_hdl2pool st poh = Some vpool ->
  st_hhash st !! uuid_copy co_uuid = None ->
  btr_find (uuid_copy co_uuid) (vp_cont_root vpool) = Some rec ->
  rec_mmid rec <> UMMID_NULL ->
  umm_heap (vp_umm vpool) !! rec_mmid rec = Some (ObjContainer c) ->
  vc_obtable c <> UMMID_NULL ->
  umm_heap (vp_umm vpool) !! vc_obtable c = Some (ObjIndex oi) ->
  vos_oi_destroy poh oi = (0, oi') ->
  vos_co_destroy st poh co_uuid =
    Returned (0, st_set_pool st poh
                   (mk_pool
                      (mk_umm
                         (delete (rec_mmid rec)
                            (delete (vc_obtable c) (umm_heap (vp_umm vpool))))
                         (S (S (umm_avail (vp_umm vpool))))
                         (umm_log (vp_umm vpool) ++
                          [EvTreeLookup (uuid_copy co_uuid); EvTxBegin;
                           EvOiDestroy (vc_obtable c) 0;
                           EvTreeDelete (uuid_copy co_uuid);
                           EvFree (vc_obtable c); EvFree (rec_mmid rec); EvTxCommit]))
                      (btr_remove (uuid_copy co_uuid) (vp_cont_root vpool)))).
Proof.
  intros Hpool Hh Hfind Hrn Hc Hon Hoi Hfin. der_facts.
  assert (Hne : rec_mmid rec <> vc_obtable c).
  { intros Heq. rewrite Heq in Hc. rewrite Hc in Hoi. discriminate. }
  unfold vos_co_destroy. rewrite Hpool.
  unfold vos_co_lookup_handle. rewrite Hh. rewrite Z.eqb_refl. simpl.
  rewrite (vos_co_tree_lookup_found _ _ _ _ Hfind). simpl.
  unfold tx_run. simpl.
  unfold umem_container at 1. simpl. rewrite Hc. simpl.
  unfold umem_index, umem_id2ptr. simpl. rewrite Hoi. simpl.
  rewrite Hfin. simpl.
  unfold dbtree_delete. cbn [to_hkey_gen vct_ops].
  rewrite vc_hkey_gen_ukey. simpl. rewrite Hfind. simpl.
  unfold vc_rec_free. simpl.
  apply TMMID_IS_NULL_false in Hrn, Hon. rewrite Hrn.
  unfold umem_container, umem_id2ptr. simpl.
  rewrite lookup_insert_ne by done. rewrite Hc. simpl. rewrite Hon. simpl.
  unfold pool_emit, pool_of_tcx, umm_emit, umem_free, umem_store. simpl.
  rewrite delete_insert_eq.
  rewrite <- !app_assoc. simpl. by destruct st.
Qed.

(** X8.  Destroy of a container that has no open handle and whose record
    and object index are in the heap, with a finalizer that succeeds,
    returns 0.  Its calls are, in order: the directory lookup, the begin
    of the transaction, the finalizer on the object index, the directory
    delete, the release of the index, the release of the record, the
    commit.  Afterwards the identifier is gone from the directory, neither
    id holds an object, lookups of other digests are as before, the order
    of the directory is kept and the budget went up by two. *)
Theorem vos_co_destroy_success (st : vos_state) (poh : N) (co_uuid : uuid_t)
    (vpool : vos_pool) (rec : btr_record) (c : vos_container)
    (oi oi' : vos_object_index) :
  vos_hdl2pool st poh = Some vpool ->
  st_hhash st !! uuid_copy co_uuid = None ->
  btr_find (uuid_copy co_uuid) (vp_cont_root vpool) = Some rec ->
  rec_mmid rec <> UMMID_NULL ->
  umm_heap (vp_umm vpool) !! rec_mmid rec = Some (ObjContainer c) ->
  vc_obtable c <> UMMID_NULL ->
  umm_heap (vp_umm vpool) !! vc_obtable c = Some (ObjIndex oi) ->
  vos_oi_destroy poh oi = (0, oi') ->
  btr_sorted (vp_cont_root vpool) ->
  exists st' vpool',
    vos_co_destroy st poh co_uuid = Returned (0, st') /\
    vos_hdl2pool st' poh = Some vpool' /\
    umm_log (vp_umm vpool') =
      umm_log (vp_umm vpool) ++
      [EvTreeLookup (uuid_copy co_uuid); EvTxBegin; EvOiDestroy (vc_obtable c) 0;
       EvTreeDelete (uuid_copy co_uuid); EvFree (vc_obtable c); EvFree (rec_mmid rec);
       EvTxCommit] /\
    btr_find (uuid_copy co_uuid) (vp_cont_root vpool') = None /\
    (forall k, k <> uuid_copy co_uuid ->
               btr_find k (vp_cont_root vpool') = btr_find k (vp_cont_root vpool)) /\
    btr_sorted (vp_cont_root vpool') /\
    umm_heap (vp_umm vpool') !! rec_mmid rec = None /\
    umm_heap (vp_umm vpool') !! vc_obtable c = None /\
    (forall id, id <> rec_mmid rec -> id <> vc_obtable c ->
                umm_heap (vp_umm vpool') !! id = umm_heap (vp_umm vpool) !! id) /\
    umm_avail (vp_umm vpool') = S (S (umm_avail (vp_umm vpool))) /\
    st_hhash st' = st_hhash st.
Proof.
  intros Hpool Hh Hfind Hrn Hc Hon Hoi Hfin Hsorted.
  rewrite (vos_co_destroy_ok st poh co_uuid vpool rec c oi oi') by done.
  eexists _, _. split; [reflexivity|].
  split; [unfold vos_hdl2pool; simpl; apply lookup_insert_eq|]. simpl.
  split; [reflexivity|].
  split; [apply btr_find_remove_same|].
  split; [intros k Hk; by apply btr_find_remove_other|].
  split; [by apply btr_remove_sorted|].
  split; [apply lookup_delete_eq|].
  split.
  { destruct (decide (rec_mmid rec = vc_obtable c)) as [->|Hne].
    - apply lookup_delete_eq.
    - rewrite lookup_delete_ne by done. apply lookup_delete_eq. }
  split; [|done].
  intros id H1 H2. rewrite lookup_delete_ne by done. by rewrite lookup_delete_ne.
Qed.


(** X10.  Destroy is all or nothing.  Whenever it returns a non-zero code
    (unknown pool handle, open handle, unknown identifier, failed
    finalizer), the heap, the budget and the directory of every pool, the
    handle cache with its reference counts and the volatile memory are as
    before the call. *)
Theorem vos_co_destroy_atomic (st : vos_state) (poh : N) (co_uuid : uuid_t)
    (rc : Z) (st' : vos_state) :
  vos_co_destroy st poh co_uuid = Returned (rc, st') ->
  rc <> 0 ->
  same_durable st st' /\ st_hhash st' = st_hhash st /\ st_dram st' = st_dram st.
Proof.
  unfold vos_co_destroy. destruct (vos_hdl2pool st poh) as [vpool|] eqn:Hpool.
  2:{ intros [= <- <-] _. split; [apply same_durable_refl|done]. }
  destruct (st_hhash st !! uuid_copy co_uuid) as [h|] eqn:Hh.
  { destruct (vos_co_putref_after_lookup _ _ _ Hh) as (hh1 & Hlook & _ & Hput).
    rewrite Hlook. der_facts.
    replace (0 =? - DER_NONEXIST) with false by (symmetry; apply Z.eqb_neq; lia).
    cbn -[vos_co_putref_handle]. rewrite Hput. simpl.
    intros [= <- <-] _. split; [by intros ?|done]. }
  unfold vos_co_lookup_handle. rewrite Hh. rewrite Z.eqb_refl. simpl.
  destruct (btr_find (uuid_copy co_uuid) (vp_cont_root vpool)) as [rec|] eqn:Hfind.
  2:{ rewrite (vos_co_tree_lookup_missing _ _ _ Hfind). simpl. der_facts.
      replace (- DER_NONEXIST =? 0) with false by (symmetry; apply Z.eqb_neq; lia).
      simpl. intros [= <- <-] _.
      split; [|done].
      eapply same_durable_trans; [apply same_durable_set_hhash|].
      by apply (same_durable_set_pool _ _ vpool). }
  rewrite (vos_co_tree_lookup_found _ _ _ _ Hfind). simpl.
  unfold tx_run. simpl.
  destruct (umem_container _ (rec_mmid rec)) as [c|]; simpl; [|discriminate].
  destruct (umem_index _ _) as [oi|]; simpl; [|discriminate].
  destruct (vos_oi_destroy poh oi) as [rc1 oi1]. simpl.
  destruct (rc1 =? 0) eqn:Hrc1; simpl.
  - unfold dbtree_delete. cbn [to_hkey_gen vct_ops].
    rewrite vc_hkey_gen_ukey. simpl. rewrite Hfind. simpl.
    destruct (vc_rec_free _ rec) as [[rc2 tins2]|]; simpl; [|discriminate].
    intros [= <- <-] Hne. by contradiction Hne.
  - intros [= <- <-] _. split; [|done].
    eapply same_durable_trans; [apply same_durable_set_hhash|].
    by apply (same_durable_set_pool _ _ vpool).
Qed.

(** X11.  Create followed by destroy is a round trip on the durable state:
    starting without an open handle for the identifier, with initializer
    and finalizer succeeding, both calls return 0 and the heap, the
    allocator budget and the directory of every pool are exactly what they
    were before the create. *)
Theorem vos_co_create_destroy_round_trip (st : vos_state) (poh : N) (co_uuid : uuid_t)
    (vpool : vos_pool) (n : nat) (oi' oi'' : vos_object_index) :
  vos_hdl2pool st poh = Some vpool ->
  st_hhash st !! uuid_copy co_uuid = None ->
  btr_find (uuid_copy co_uuid) (vp_cont_root vpool) = None ->
  umm_avail (vp_umm vpool) = S (S n) ->
  vos_oi_create poh zeroed_index = (0, oi') ->
  vos_oi_destroy poh oi' = (0, oi'') ->
  exists st1 st2,
    vos_co_create st poh co_uuid = Returned (0, st1) /\
    vos_co_destroy st1 poh co_uuid = Returned (0, st2) /\
    same_durable st st2.
Proof.
  intros Hpool Hh Hfind Havail Hoi Hfin.
  destruct (vos_co_create_ok st poh co_uuid vpool n oi' Hpool Hfind Havail Hoi)
    as (cid & oid & log' & Hrun & Hc & Ho & Hne & Hhc & Hho).
  rewrite Hrun.
  set (rec := mk_rec cid (uuid_copy co_uuid)) in *.
  set (c := mk_container (uuid_copy co_uuid) 0 oid) in *.
  match goal with
  | |- context [st_set_pool st poh ?p] => set (vpool1 := p) in *
  end.
  assert (Hd : vos_co_destroy (st_set_pool st poh vpool1) poh co_uuid = _)
    by (apply (vos_co_destroy_ok (st_set_pool st poh vpool1) poh co_uuid vpool1 rec c oi' oi'');
        simpl; try done;
        [ unfold vos_hdl2pool; simpl; apply lookup_insert_eq
        | by apply (btr_find_insert_same rec)
        | rewrite lookup_insert_ne by done; apply lookup_insert_eq
        | apply lookup_insert_eq ]).
  eexists _, _. split; [reflexivity|]. split; [exact Hd|].
  intros poh'. simpl. destruct (decide (poh = poh')) as [<-|Hp].
  - rewrite lookup_insert_eq. unfold vos_hdl2pool in Hpool. rewrite Hpool. simpl.
    unfold pool_durable. simpl. f_equal. f_equal; [f_equal|].
    + rewrite delete_insert_eq. rewrite delete_insert_ne by done.
      rewrite delete_insert_eq. rewrite (delete_id _ oid) by done. by apply delete_id.
    + done.
    + by apply (btr_remove_insert rec).
  - rewrite lookup_insert_ne by done. by rewrite lookup_insert_ne.
Qed.

End DestroyFacts.

(** ** Open and query *)

Section OpenFacts.
Context `{env : vos_env}.

(** The state a first open of a container leaves, spelled out. *)
Lemma vos_co_open_ok (st : vos_state) (poh : N) (co_uuid : uuid_t)
    (vpool : vos_pool) (rec : btr_record) (c : vos_container)
    (oi : vos_object_index) (d : nat) :
  vos_hdl2pool st poh = Some vpool ->
  st_hhash st !! uuid_copy co_uuid = None ->
  btr_find (uuid_copy co_uuid) (vp_cont_root vpool) = Some rec ->
  umm_heap (vp_umm vpool) !! rec_mmid rec = Some (ObjContainer c) ->
  umm_heap (vp_umm vpool) !! vc_obtable c = Some (ObjIndex oi) ->
  st_dram st = S d ->
  dbtree_open_inplace oi = 0 ->
  vos_co_open st poh co_uuid =
    Returned (0,
              mk_state (<[poh := pool_emit vpool (EvTreeLookup (uuid_copy co_uuid))]>
                          (st_pools st))
                       (<[uuid_copy co_uuid :=
                            mk_hdl (uuid_copy co_uuid) poh (rec_mmid rec) (vc_obtable c) 1]>
                          (st_hhash st))
                       d,
              Some (uuid_copy co_uuid)).
Proof.
  intros Hpool Hh Hfind Hc Hoi Hdram Hopen. der_facts.
  unfold vos_co_open. rewrite Hpool.
  unfold vos_co_lookup_handle. rewrite Hh.
  replace (- DER_NONEXIST =? 0) with false by (symmetry; apply Z.eqb_neq; lia).
  rewrite (vos_co_tree_lookup_found _ _ _ _ Hfind). simpl.
  unfold D_ALLOC_PTR. simpl. rewrite Hdram.
  unfold umem_container. simpl. rewrite Hc. simpl.
  unfold umem_index, umem_id2ptr. simpl. rewrite Hoi. simpl.
  rewrite Hopen. simpl.
  unfold vos_co_insert_handle. simpl. rewrite Hh. simpl. reflexivity.
Qed.

(** X12.  The first open of a container that is in the directory, with
    volatile memory left and an object index that opens, returns 0 and a
    handle registered under the identifier with reference count 1; the
    handle records the pool, the pointer to the durable container record
    and the pointer to its object index; one unit of volatile memory is
    taken and the durable state is not changed. *)
Theorem vos_co_open_first (st : vos_state) (poh : N) (co_uuid : uuid_t)
    (vpool : vos_pool) (rec : btr_record) (c : vos_container)
    (oi : vos_object_index) (d : nat) :
  vos_hdl2pool st poh = Some vpool ->
  st_hhash st !! uuid_copy co_uuid = None ->
  btr_find (uuid_copy co_uuid) (vp_cont_root vpool) = Some rec ->
  umm_heap (vp_umm vpool) !! rec_mmid rec = Some (ObjContainer c) ->
  umm_heap (vp_umm vpool) !! vc_obtable c = Some (ObjIndex oi) ->
  st_dram st = S d ->
  dbtree_open_inplace oi = 0 ->
  exists st' co_hdl,
    vos_co_open st poh co_uuid = Returned (0, st', Some (uuid_copy co_uuid)) /\
    vos_hdl2co st' (Some (uuid_copy co_uuid)) = Some co_hdl /\
    hdl_vc_ref co_hdl = 1%nat /\
    hdl_vc_id co_hdl = uuid_copy co_uuid /\
    hdl_vc_pool co_hdl = poh /\
    hdl_vc_co co_hdl = rec_mmid rec /\
    hdl_vc_obj_table co_hdl = vc_obtable c /\
    (forall k, k <> uuid_copy co_uuid -> st_hhash st' !! k = st_hhash st !! k) /\
    st_dram st' = d /\
    same_durable st st'.
Proof.
  intros Hpool Hh Hfind Hc Hoi Hdram Hopen.
  rewrite (vos_co_open_ok st poh co_uuid vpool rec c oi d) by done.
  eexists _, _. split; [reflexivity|]. simpl.
  split; [apply lookup_insert_eq|]. simpl.
  do 5 (split; [reflexivity|]).
  split; [intros k Hk; by rewrite lookup_insert_ne|].
  split; [reflexivity|].
  intros poh'. simpl. destruct (decide (poh = poh')) as [<-|Hp].
  - rewrite lookup_insert_eq. unfold vos_hdl2pool in Hpool. by rewrite Hpool.
  - by rewrite lookup_insert_ne.
Qed.

(** X13.  Open never changes the heap, the budget or the directory of any
    pool.  When it returns a non-zero code it hands out no handle and the
    handle cache and the volatile memory are as before the call: the
    memory of a handle that could not be completed has been given back.
    When it returns 0 the handle it hands out is the identifier's, and it
    is registered in the cache. *)
Theorem vos_co_open_footprint (st : vos_state) (poh : N) (co_uuid : uuid_t)
    (rc : Z) (st' : vos_state) (coh : option (list byte)) :
  vos_co_open st poh co_uuid = Returned (rc, st', coh) ->
  same_durable st st' /\
  (rc <> 0 ->
   coh = None /\ st_hhash st' = st_hhash st /\ st_dram st' = st_dram st) /\
  (rc = 0 ->
   coh = Some (uuid_copy co_uuid) /\ is_Some (vos_hdl2co st' coh)).
Proof.
  unfold vos_co_open. destruct (vos_hdl2pool st poh) as [vpool|] eqn:Hpool.
  2:{ intros [= <- <- <-]. der_facts. split; [apply same_durable_refl|].
      split; [done|]. intros; lia. }
  unfold vos_co_lookup_handle.
  destruct (st_hhash st !! uuid_copy co_uuid) as [h|] eqn:Hh.
  { simpl. intros [= <- <- <-]. split; [by intros ?|]. split; [done|].
    intros _. split; [done|]. simpl. rewrite lookup_insert_eq. eauto. }
  der_facts.
  replace (- DER_NONEXIST =? 0) with false by (symmetry; apply Z.eqb_neq; lia).
  assert (Hdur : forall vpool', pool_durable vpool' = pool_durable vpool ->
            same_durable st (st_set_pool (st_set_hhash st (st_hhash st)) poh vpool')).
  { intros vpool' Heq. eapply same_durable_trans; [apply same_durable_set_hhash|].
    by apply (same_durable_set_pool _ _ vpool). }
  destruct (btr_find (uuid_copy co_uuid) (vp_cont_root vpool)) as [rec|] eqn:Hfind.
  2:{ rewrite (vos_co_tree_lookup_missing _ _ _ Hfind). simpl.
      replace (- DER_NONEXIST =? 0) with false by (symmetry; apply Z.eqb_neq; lia).
      simpl. intros [= <- <- <-]. split; [by apply Hdur|]. split; [done|]. intros; lia. }
  rewrite (vos_co_tree_lookup_found _ _ _ _ Hfind). simpl.
  unfold D_ALLOC_PTR. simpl. destruct (st_dram st) as [|d] eqn:Hdram.
  { intros [= <- <- <-]. split; [by apply Hdur|]. split; [done|]. intros; lia. }
  destruct (umem_container _ _) as [c|]; simpl; [|discriminate].
  destruct (umem_index _ _) as [oi|]; simpl; [|discriminate].
  destruct (dbtree_open_inplace oi =? 0) eqn:Hopen; simpl.
  2:{ intros [= <- <- <-].
      split; [eapply same_durable_pools;
             [|by apply (Hdur (pool_emit vpool (EvTreeLookup (uuid_copy co_uuid))))]; done|].
      split; [done|]. intros Hz. rewrite Hz in Hopen. discriminate. }
  unfold vos_co_insert_handle. simpl. rewrite Hh. simpl.
  intros [= <- <- <-].
  split; [eapply same_durable_pools;
             [|by apply (Hdur (pool_emit vpool (EvTreeLookup (uuid_copy co_uuid))))]; done|].
  split; [done|].
  intros _. split; [done|]. simpl. rewrite lookup_insert_eq. eauto.
Qed.

(** X14.  The codes of a failing open, in the order the code checks: an
    unknown pool handle gives [-DER_INVAL]; an identifier neither in the
    cache nor in the directory gives [-DER_NONEXIST]; a container in the
    directory gives [-DER_NOSPACE] when no volatile memory is left, and
    otherwise the code of the in-place open of its object index when that
    one fails. *)
Theorem vos_co_open_error_codes (st : vos_state) (poh : N) (co_uuid : uuid_t) :
  (vos_hdl2pool st poh = None ->
   vos_co_open st poh co_uuid = Returned (- DER_INVAL, st, None)) /\
  (forall vpool,
     vos_hdl2pool st poh = Some vpool ->
     st_hhash st !! uuid_copy co_uuid = None ->
     (btr_find (uuid_copy co_uuid) (vp_cont_root vpool) = None ->
      exists st', vos_co_open st poh co_uuid = Returned (- DER_NONEXIST, st', None)) /\
     (forall rec,
        btr_find (uuid_copy co_uuid) (vp_cont_root vpool) = Some rec ->
        (st_dram st = 0%nat ->
         exists st', vos_co_open st poh co_uuid = Returned (- DER_NOSPACE, st', None)) /\
        (forall c oi d,
           umm_heap (vp_umm vpool) !! rec_mmid rec = Some (ObjContainer c) ->
           umm_heap (vp_umm vpool) !! vc_obtable c = Some (ObjIndex oi) ->
           st_dram st = S d ->
           dbtree_open_inplace oi <> 0 ->
           exists st',
             vos_co_open st poh co_uuid = Returned (dbtree_open_inplace oi, st', None)))).
Proof.
  der_facts. split.
  { intros Hpool. unfold vos_co_open. by rewrite Hpool. }
  intros vpool Hpool Hh. split.
  - intros Hfind. unfold vos_co_open. rewrite Hpool.
    unfold vos_co_lookup_handle. rewrite Hh.
    replace (- DER_NONEXIST =? 0) with false by (symmetry; apply Z.eqb_neq; lia).
    rewrite (vos_co_tree_lookup_missing _ _ _ Hfind). simpl.
    replace (- DER_NONEXIST =? 0) with false by (symmetry; apply Z.eqb_neq; lia).
    simpl. eauto.
  - intros rec Hfind. split.
    + intros Hdram. unfold vos_co_open. rewrite Hpool.
      unfold vos_co_lookup_handle. rewrite Hh.
      replace (- DER_NONEXIST =? 0) with false by (symmetry; apply Z.eqb_neq; lia).
      rewrite (vos_co_tree_lookup_found _ _ _ _ Hfind). simpl.
      unfold D_ALLOC_PTR. simpl. rewrite Hdram. eauto.
    + intros c oi d Hc Hoi Hdram Hopen. unfold vos_co_open. rewrite Hpool.
      unfold vos_co_lookup_handle. rewrite Hh.
      replace (- DER_NONEXIST =? 0) with false by (symmetry; apply Z.eqb_neq; lia).
      rewrite (vos_co_tree_lookup_found _ _ _ _ Hfind). simpl.
      unfold D_ALLOC_PTR. simpl. rewrite Hdram.
      unfold umem_container. simpl. rewrite Hc. simpl.
      unfold umem_index, umem_id2ptr. simpl. rewrite Hoi. simpl.
      apply Z.eqb_neq in Hopen. rewrite Hopen. simpl. eauto.
Qed.

End OpenFacts.

(** ** Sequences of operations *)

Section LifecycleFacts.
Context `{env : vos_env}.

(** X15.  Two opens of the same container share one handle: after a first
    open that built the handle, a second open returns 0 and the same
    handle, the cache holds it with reference count 2 and with the
    pointers the first open recorded, and no further volatile memory is
    taken. *)
Theorem vos_co_open_twice (st : vos_state) (poh : N) (co_uuid : uuid_t)
    (vpool : vos_pool) (rec : btr_record) (c : vos_container)
    (oi : vos_object_index) (d : nat) :
  vos_hdl2pool st poh = Some vpool ->
  st_hhash st !! uuid_copy co_uuid = None ->
  btr_find (uuid_copy co_uuid) (vp_cont_root vpool) = Some rec ->
  umm_heap (vp_umm vpool) !! rec_mmid rec = Some (ObjContainer c) ->
  umm_heap (vp_umm vpool) !! vc_obtable c = Some (ObjIndex oi) ->
  st_dram st = S d ->
  dbtree_open_inplace oi = 0 ->
  exists st1 st2 coh,
    vos_co_open st poh co_uuid = Returned (0, st1, coh) /\
    vos_co_open st1 poh co_uuid = Returned (0, st2, coh) /\
    vos_hdl2co st2 coh =
      Some (mk_hdl (uuid_copy co_uuid) poh (rec_mmid rec) (vc_obtable c) 2) /\
    st_dram st2 = st_dram st1 /\
    st_pools st2 = st_pools st1.
Proof.
  intros Hpool Hh Hfind Hc Hoi Hdram Hopen.
  rewrite (vos_co_open_ok st poh co_uuid vpool rec c oi d) by done.
  eexists _, _, _. split; [reflexivity|].
  unfold vos_co_open at 1. unfold vos_hdl2pool. simpl. rewrite lookup_insert_eq.
  unfold vos_co_lookup_handle. rewrite lookup_insert_eq. simpl.
  split; [reflexivity|]. simpl. split; [|done].
  rewrite lookup_insert_eq. reflexivity.
Qed.

(** X16.  An open handle protects the container: right after a first open
    that succeeded, destroy of the identifier returns [-DER_BUSY] and the
    whole state, the reference count of the handle included, is what the
    open left. *)
Theorem vos_co_open_blocks_destroy (st : vos_state) (poh : N) (co_uuid : uuid_t)
    (vpool : vos_pool) (rec : btr_record) (c : vos_container)
    (oi : vos_object_index) (d : nat) :
  vos_hdl2pool st poh = Some vpool ->
  st_hhash st !! uuid_copy co_uuid = None ->
  btr_find (uuid_copy co_uuid) (vp_cont_root vpool) = Some rec ->
  umm_heap (vp_umm vpool) !! rec_mmid rec = Some (ObjContainer c) ->
  umm_heap (vp_umm vpool) !! vc_obtable c = Some (ObjIndex oi) ->
  st_dram st = S d ->
  dbtree_open_inplace oi = 0 ->
  exists st1 coh,
    vos_co_open st poh co_uuid = Returned (0, st1, coh) /\
    vos_co_destroy st1 poh co_uuid = Returned (- DER_BUSY, st1).
Proof.
  intros Hpool Hh Hfind Hc Hoi Hdram Hopen. der_facts.
  rewrite (vos_co_open_ok st poh co_uuid vpool rec c oi d) by done.
  eexists _, _. split; [reflexivity|].
  unfold vos_co_destroy. unfold vos_hdl2pool. simpl. rewrite lookup_insert_eq.
  match goal with
  | |- context [vos_co_lookup_handle ?hh ?k] =>
      destruct (vos_co_putref_after_lookup hh k
                  (mk_hdl (uuid_copy co_uuid) poh (rec_mmid rec) (vc_obtable c) 1)
                  (lookup_insert_eq _ _ _))
        as (hh1 & Hlook & _ & Hput)
  end.
  rewrite Hlook.
  replace (0 =? - DER_NONEXIST) with false by (symmetry; apply Z.eqb_neq; lia).
  cbn -[vos_co_putref_handle]. rewrite Hput. reflexivity.
Qed.

(** X17.  Create, open, query: for an identifier that is neither in the
    directory nor in the cache, with room for two objects, volatile memory
    left, and an initializer and an in-place open that succeed, the three
    calls return 0 and query yields the zeroed information block of the
    freshly created record. *)
Theorem vos_co_create_open_query (st : vos_state) (poh : N) (co_uuid : uuid_t)
    (vpool : vos_pool) (n d : nat) (oi' : vos_object_index) :
  vos_hdl2pool st poh = Some vpool ->
  st_hhash st !! uuid_copy co_uuid = None ->
  btr_find (uuid_copy co_uuid) (vp_cont_root vpool) = None ->
  umm_avail (vp_umm vpool) = S (S n) ->
  st_dram st = S d ->
  vos_oi_create poh zeroed_index = (0, oi') ->
  dbtree_open_inplace oi' = 0 ->
  exists st1 st2 coh,
    vos_co_create st poh co_uuid = Returned (0, st1) /\
    vos_co_open st1 poh co_uuid = Returned (0, st2, coh) /\
    vos_co_query st2 coh = Returned (0, Some 0).
Proof.
  intros Hpool Hh Hfind Havail Hdram Hoi Hopen.
  destruct (vos_co_create_ok st poh co_uuid vpool n oi' Hpool Hfind Havail Hoi)
    as (cid & oid & log' & Hrun & Hc & Ho & Hne & Hhc & Hho).
  rewrite Hrun.
  set (rec := mk_rec cid (uuid_copy co_uuid)) in *.
  set (c := mk_container (uuid_copy co_uuid) 0 oid) in *.
  match goal with
  | |- context [st_set_pool st poh ?p] => set (vpool1 := p) in *
  end.
  assert (Ho1 : vos_co_open (st_set_pool st poh vpool1) poh co_uuid = _)
    by (apply (vos_co_open_ok (st_set_pool st poh vpool1) poh co_uuid vpool1 rec c oi' d);
        simpl; try done;
        [ unfold vos_hdl2pool; simpl; apply lookup_insert_eq
        | by apply (btr_find_insert_same rec)
        | rewrite lookup_insert_ne by done; apply lookup_insert_eq
        | apply lookup_insert_eq ]).
  eexists _, _, _. split; [reflexivity|]. split; [exact Ho1|].
  unfold vos_co_query, vos_hdl2co. simpl. rewrite lookup_insert_eq. simpl.
  rewrite lookup_insert_eq. simpl.
  unfold umem_container. simpl.
  rewrite lookup_insert_ne by done. rewrite lookup_insert_eq. reflexivity.
Qed.

(** X18.  Destroy, then open: after a destroy that succeeded, open of the
    identifier returns [-DER_NONEXIST], hands out no handle and registers
    none. *)
Theorem vos_co_destroy_then_open (st : vos_state) (poh : N) (co_uuid : uuid_t)
    (vpool : vos_pool) (rec : btr_record) (c : vos_container)
    (oi oi' : vos_object_index) :
  vos_hdl2pool st poh = Some vpool ->
  st_hhash st !! uuid_copy co_uuid = None ->
  btr_find (uuid_copy co_uuid) (vp_cont_root vpool) = Some rec ->
  rec_mmid rec <> UMMID_NULL ->
  umm_heap (vp_umm vpool) !! rec_mmid rec = Some (ObjContainer c) ->
  vc_obtable c <> UMMID_NULL ->
  umm_heap (vp_umm vpool) !! vc_obtable c = Some (ObjIndex oi) ->
  vos_oi_destroy poh oi = (0, oi') ->
  exists st1 st2,
    vos_co_destroy st poh co_uuid = Returned (0, st1) /\
    vos_co_open st1 poh co_uuid = Returned (- DER_NONEXIST, st2, None) /\
    st_hhash st2 = st_hhash st.
Proof.
  intros Hpool Hh Hfind Hrn Hc Hon Hoi Hfin. der_facts.
  rewrite (vos_co_destroy_ok st poh co_uuid vpool rec c oi oi') by done.
  eexists _, _. split; [reflexivity|].
  unfold vos_co_open. unfold vos_hdl2pool. simpl. rewrite lookup_insert_eq.
  unfold vos_co_lookup_handle. simpl. rewrite Hh.
  replace (- DER_NONEXIST =? 0) with false by (symmetry; apply Z.eqb_neq; lia).
  rewrite (vos_co_tree_lookup_missing _ co_uuid).
  2:{ simpl. apply btr_find_remove_same. }
  simpl.
  replace (- DER_NONEXIST =? 0) with false by (symmetry; apply Z.eqb_neq; lia).
  simpl. split; reflexivity.
Qed.

End LifecycleFacts.

(** ** Iteration *)

Lemma btr_sorted_delete (root : list btr_record) (i : nat) (rec : btr_record) :
  btr_sorted root -> root !! i = Some rec ->
  delete i root = btr_remove (rec_hkey rec) root.
Proof.
  unfold btr_sorted. intros Hs. revert i.
  induction Hs as [|r root Hs IH Hall]; intros i Hi; [done|].
  rewrite Forall_forall in Hall.
  destruct i as [|i]; simpl in Hi.
  - injection Hi as ->. simpl. unfold btr_remove.
    rewrite filter_cons_False by (intros H; by apply H).
    symmetry. apply btr_remove_absent.
    destruct (btr_find (rec_hkey rec) root) as [r'|] eqn:E; [|done].
    apply btr_find_Some in E as [Hin Hk].
    specialize (Hall r' Hin). rewrite Hk in Hall. by apply hkey_lt_irrefl in Hall.
  - simpl. unfold btr_remove. rewrite filter_cons_True.
    + f_equal. by apply IH.
    + intros Hk. assert (Hin : rec ∈ root) by (by eapply list_elem_of_lookup_2).
      specialize (Hall rec Hin). rewrite Hk in Hall. by apply hkey_lt_irrefl in Hall.
Qed.

Lemma btr_sorted_probe_self (root : list btr_record) (i : nat) (rec : btr_record) :
  btr_sorted root -> root !! i = Some rec ->
  list_find (fun r => hkey_le (rec_hkey rec) (rec_hkey r)) root = Some (i, rec).
Proof.
  intros Hs Hi. apply list_find_Some. split; [done|]. split; [apply hkey_le_refl|].
  intros j y Hj Hlt Hle.
  pose proof (btr_sorted_lookup root j i y rec Hs Hj Hi Hlt) as Hlt'.
  unfold hkey_lt in Hlt'. unfold hkey_le in Hle.
  rewrite hkey_cmp_antisym, Hlt' in Hle. by apply Hle.
Qed.

Section IterationFacts.
Context `{env : vos_env}.

(** X19.  Fetch at a position: with the cursor on a record of a well
    formed directory, fetch returns 0, the output entry carries the
    identifier stored in the durable container record, which is the first
    16 bytes of the record's digest, and the anchor returned is the digest;
    what the entry and the anchor held on entry does not matter. *)
Theorem vos_co_iter_fetch_entry (st : vos_state) (co_iter : vos_co_iter)
    (vpool : vos_pool) (i : nat) (rec : btr_record)
    (it_entry : vos_iter_entry_t) (anchor : option (list byte)) :
  it_type co_iter = VOS_ITER_COUUID ->
  cot_hdl co_iter = Some (CursorAt i) ->
  st_pools st !! cot_pool co_iter = Some vpool ->
  dir_wf vpool ->
  vp_cont_root vpool !! i = Some rec ->
  vos_co_iter_fetch st co_iter it_entry anchor =
    Returned (0, mk_entry (uuid_copy (rec_hkey rec)), Some (rec_hkey rec)).
Proof.
  intros Htype Hhdl Hpool Hwf Hi.
  destruct (Hwf rec) as (_ & c & oi & Hc & Hid & _); [by eapply list_elem_of_lookup_2|].
  unfold vos_co_iter_fetch, vos_co_iter_tree, dbtree_iter_fetch.
  rewrite Htype, Hhdl, Hpool. simpl. rewrite Hi. simpl.
  unfold umem_container, umem_id2ptr. simpl. rewrite Hc. simpl. by rewrite Hid.
Qed.

(** X20.  Iteration can be resumed from an anchor.  In a well formed,
    ordered directory let fetch at position [i] return an anchor.  Then
    probe with that anchor, from whatever position the iterator is in,
    returns 0 and puts the cursor back on position [i]; next from there
    returns 0 and moves to position [i + 1] when the directory has such a
    record, where fetch returns that record's identifier, and returns
    [-DER_NONEXIST] and leaves the iterator without position when [i] was
    the last record. *)
Theorem vos_co_iter_resume (st : vos_state) (co_iter : vos_co_iter)
    (vpool : vos_pool) (cur : btr_cursor) (i : nat) (rec : btr_record)
    (it_entry : vos_iter_entry_t) (anchor : option (list byte)) :
  it_type co_iter = VOS_ITER_COUUID ->
  cot_hdl co_iter = Some cur ->
  st_pools st !! cot_pool co_iter = Some vpool ->
  dir_wf vpool ->
  btr_sorted (vp_cont_root vpool) ->
  vp_cont_root vpool !! i = Some rec ->
  let at_pos (j : nat) := mk_co_iter VOS_ITER_COUUID (Some (CursorAt j)) (cot_pool co_iter) in
  exists a,
    vos_co_iter_fetch st (at_pos i) it_entry anchor =
      Returned (0, mk_entry (uuid_copy (rec_hkey rec)), Some a) /\
    vos_co_iter_probe st co_iter (Some a) = Returned (0, at_pos i) /\
    (forall rec',
       vp_cont_root vpool !! S i = Some rec' ->
       vos_co_iter_next st (at_pos i) = Returned (0, at_pos (S i)) /\
       vos_co_iter_fetch st (at_pos (S i)) it_entry anchor =
         Returned (0, mk_entry (uuid_copy (rec_hkey rec')), Some (rec_hkey rec'))) /\
    (vp_cont_root vpool !! S i = None ->
     vos_co_iter_next st (at_pos i) =
       Returned (- DER_NONEXIST,
                 mk_co_iter VOS_ITER_COUUID (Some CursorNone) (cot_pool co_iter))).
Proof.
  intros Htype Hhdl Hpool Hwf Hsorted Hi at_pos.
  assert (Hfetch : forall j r, vp_cont_root vpool !! j = Some r ->
            vos_co_iter_fetch st (at_pos j) it_entry anchor =
              Returned (0, mk_entry (uuid_copy (rec_hkey r)), Some (rec_hkey r))).
  { intros j r Hj.
    destruct (Hwf r) as (_ & c & oi & Hc & Hid & _); [by eapply list_elem_of_lookup_2|].
    unfold vos_co_iter_fetch, vos_co_iter_tree, dbtree_iter_fetch. simpl.
    rewrite Hpool. simpl. rewrite Hj. simpl.
    unfold umem_container, umem_id2ptr. simpl. rewrite Hc. simpl. by rewrite Hid. }
  exists (rec_hkey rec). split; [by apply Hfetch|]. split.
  - unfold vos_co_iter_probe, vos_co_iter_tree, dbtree_iter_probe.
    rewrite Htype, Hhdl, Hpool. simpl.
    by rewrite (btr_sorted_probe_self _ i rec).
  - split.
    + intros rec' Hi'. split; [|by apply Hfetch].
      unfold vos_co_iter_next, vos_co_iter_tree, dbtree_iter_next. simpl.
      rewrite Hpool. simpl. by rewrite Hi'.
    + intros Hi'. unfold vos_co_iter_next, vos_co_iter_tree, dbtree_iter_next. simpl.
      rewrite Hpool. simpl. by rewrite Hi'.
Qed.

(** X21.  Delete through the iterator: with the cursor on a record of an
    ordered directory whose container record and object index are in the
    heap, the delete returns 0 inside one committed transaction whose only
    calls are the release of the object index and the release of the
    record; unlike destroy it does not run the object-index finalizer.
    Afterwards the record's digest is no longer found, lookups of other
    digests are as before and both ids are free. *)
Theorem vos_co_iter_delete_entry (st : vos_state) (co_iter : vos_co_iter)
    (vpool : vos_pool) (i : nat) (rec : btr_record) (c : vos_container) :
  it_type co_iter = VOS_ITER_COUUID ->
  cot_hdl co_iter = Some (CursorAt i) ->
  st_pools st !! cot_pool co_iter = Some vpool ->
  btr_sorted (vp_cont_root vpool) ->
  vp_cont_root vpool !! i = Some rec ->
  rec_mmid rec <> UMMID_NULL ->
  umm_heap (vp_umm vpool) !! rec_mmid rec = Some (ObjContainer c) ->
  vc_obtable c <> UMMID_NULL ->
  exists st' co_iter' vpool',
    vos_co_iter_delete st co_iter = Returned (0, st', co_iter') /\
    st_pools st' !! cot_pool co_iter = Some vpool' /\
    umm_log (vp_umm vpool') =
      umm_log (vp_umm vpool) ++
      [EvTxBegin; EvFree (vc_obtable c); EvFree (rec_mmid rec); EvTxCommit] /\
    btr_find (rec_hkey rec) (vp_cont_root vpool') = None /\
    (forall k, k <> rec_hkey rec ->
               btr_find k (vp_cont_root vpool') = btr_find k (vp_cont_root vpool)) /\
    umm_heap (vp_umm vpool') !! rec_mmid rec = None /\
    umm_heap (vp_umm vpool') !! vc_obtable c = None /\
    st_hhash st' = st_hhash st.
Proof.
  intros Htype Hhdl Hpool Hsorted Hi Hrn Hc Hon.
  unfold vos_co_iter_delete. rewrite Htype, Hhdl, Hpool. simpl.
  unfold tx_run, dbtree_iter_delete. simpl. rewrite Hi. simpl.
  unfold vc_rec_free. simpl.
  apply TMMID_IS_NULL_false in Hrn, Hon. rewrite Hrn.
  unfold umem_container, umem_id2ptr. simpl. rewrite Hc. simpl. rewrite Hon. simpl.
  eexists _, _, _. split; [reflexivity|]. simpl.
  split; [apply lookup_insert_eq|]. simpl.
  split; [by rewrite <- !app_assoc|].
  rewrite (btr_sorted_delete _ i rec) by done.
  split; [apply btr_find_remove_same|].
  split; [intros k Hk; by apply btr_find_remove_other|].
  split; [apply lookup_delete_eq|]. split; [|done].
  destruct (decide (rec_mmid rec = vc_obtable c)) as [->|Hne].
  - apply lookup_delete_eq.
  - rewrite lookup_delete_ne by done. apply lookup_delete_eq.
Qed.

End IterationFacts.

(** ** Closed instances of the further properties *)

Lemma sample_pool_wf : dir_wf sample_pool.
Proof.
  intros rec Hin.
  apply elem_of_cons in Hin as [->|Hin];
    [|apply elem_of_cons in Hin as [->|Hin]; [|by apply elem_of_nil in Hin]].
  - split; [done|]. eexists _, _. repeat split; try reflexivity. done.
  - split; [done|]. eexists _, _. repeat split; try reflexivity. done.
Qed.

Lemma sample_pool_sorted : btr_sorted (vp_cont_root sample_pool).
Proof. repeat constructor. Qed.

Lemma vc_rec_alloc_success_witness :
  exists tins' val' rec',
    vc_rec_alloc (env := sample_env 0 0) (mk_tins (mk_umm ∅ 4 []))
      (daos_iov_set uuid_a sizeof_uuid)
      (daos_iov_set (mk_val_buf 0%N 7%N) sizeof_vc_val_buf)
      (mk_rec UMMID_NULL uuid_a) = Returned (0, tins', val', rec') /\
    rec_mmid rec' <> UMMID_NULL.
Proof.
  destruct (vc_rec_alloc_success (env := sample_env 0 0) (mk_tins (mk_umm ∅ 4 []))
              (daos_iov_set uuid_a sizeof_uuid)
              (daos_iov_set (mk_val_buf 0%N 7%N) sizeof_vc_val_buf)
              (mk_rec UMMID_NULL uuid_a) 2 (mk_oi 1))
    as (tins' & val' & rec' & oid & Hrun & Hnn & _).
  - reflexivity.
  - reflexivity.
  - reflexivity.
  - exists tins', val', rec'. split; [exact Hrun|exact Hnn].
Defined.

Lemma vc_rec_alloc_return_code_witness :
  exists tins' val' rec',
    vc_rec_alloc (env := sample_env (-2003) 0) (mk_tins (mk_umm ∅ 4 []))
      (daos_iov_set uuid_a sizeof_uuid)
      (daos_iov_set (mk_val_buf 0%N 7%N) sizeof_vc_val_buf)
      (mk_rec UMMID_NULL uuid_a) = Returned (- 2003, tins', val', rec') /\
    - 2003 = fst (vos_oi_create (vos_env := sample_env (-2003) 0) 7%N zeroed_index).
Proof.
  eexists _, _, _. split; [reflexivity|].
  edestruct (vc_rec_alloc_return_code (env := sample_env (-2003) 0)
               (mk_tins (mk_umm ∅ 4 [])) (daos_iov_set uuid_a sizeof_uuid)
               (daos_iov_set (mk_val_buf 0%N 7%N) sizeof_vc_val_buf)
               (mk_rec UMMID_NULL uuid_a) (- 2003)) as (_ & Hhigh & _).
  - reflexivity.
  - apply Hhigh. simpl. lia.
Defined.

Lemma vc_rec_alloc_free_round_trip_witness :
  exists tins1 val1 rec1 tins2,
    vc_rec_alloc (env := sample_env 0 0) (mk_tins (vp_umm sample_pool))
      (daos_iov_set uuid_b sizeof_uuid)
      (daos_iov_set (mk_val_buf 0%N 7%N) sizeof_vc_val_buf)
      (mk_rec UMMID_NULL uuid_b) = Returned (0, tins1, val1, rec1) /\
    vc_rec_free (env := sample_env 0 0) tins1 rec1 = Returned (0, tins2) /\
    umm_heap (ti_umm tins2) = sample_heap.
Proof.
  destruct (vc_rec_alloc_free_round_trip (env := sample_env 0 0)
              (mk_tins (vp_umm sample_pool)) (daos_iov_set uuid_b sizeof_uuid)
              (daos_iov_set (mk_val_buf 0%N 7%N) sizeof_vc_val_buf)
              (mk_rec UMMID_NULL uuid_b) 2 (mk_oi 1))
    as (tins1 & val1 & rec1 & tins2 & Halloc & Hfree & Hheap & _).
  - reflexivity.
  - reflexivity.
  - reflexivity.
  - exists tins1, val1, rec1, tins2. split; [exact Halloc|]. split; [exact Hfree|exact Hheap].
Defined.

Lemma vos_co_create_success_witness :
  exists st' vpool' rec,
    vos_co_create (env := sample_env 0 0) sample_state 7%N uuid_b = Returned (0, st') /\
    vos_hdl2pool st' 7%N = Some vpool' /\
    btr_find uuid_b (vp_cont_root vpool') = Some rec.
Proof.
  destruct (vos_co_create_success (env := sample_env 0 0) sample_state 7%N uuid_b
              sample_pool 2 (mk_oi 1))
    as (st' & vpool' & rec & oid & Hrun & Hpool & _ & Hfind & _).
  - reflexivity.
  - reflexivity.
  - reflexivity.
  - reflexivity.
  - exists st', vpool', rec. split; [exact Hrun|]. split; [exact Hpool|exact Hfind].
Defined.

Lemma vos_co_create_atomic_witness :
  exists st',
    vos_co_create (env := sample_env (-2003) 0) (fresh_state 4) 7%N uuid_a =
      Returned (- 2003, st') /\
    same_durable (fresh_state 4) st'.
Proof.
  eexists. split; [reflexivity|].
  edestruct (vos_co_create_atomic (env := sample_env (-2003) 0)
               (fresh_state 4) 7%N uuid_a (- 2003)) as (_ & _ & Hdur).
  - reflexivity.
  - apply Hdur. lia.
Defined.

Lemma vos_co_create_twice_witness :
  exists st1 st2,
    vos_co_create (env := sample_env 0 0) sample_state 7%N uuid_b = Returned (0, st1) /\
    vos_co_create (env := sample_env 0 0) st1 7%N uuid_b = Returned (- 2004, st2).
Proof.
  destruct (vos_co_create_twice (env := sample_env 0 0) sample_state 7%N uuid_b
              sample_pool 2 (mk_oi 1))
    as (st1 & st2 & H1 & H2 & _).
  - reflexivity.
  - reflexivity.
  - reflexivity.
  - reflexivity.
  - exists st1, st2. split; [exact H1|exact H2].
Defined.

Lemma vos_co_create_keeps_wf_witness :
  exists st' vpool',
    vos_co_create (env := sample_env 0 0) sample_state 7%N uuid_b = Returned (0, st') /\
    vos_hdl2pool st' 7%N = Some vpool' /\
    dir_wf vpool' /\
    btr_sorted (vp_cont_root vpool').
Proof.
  eexists. 
  edestruct (vos_co_create_keeps_wf (env := sample_env 0 0) sample_state 7%N uuid_b
               sample_pool 0) as (vpool' & Hpool & Hwf & Hsorted).
  - reflexivity.
  - exact sample_pool_wf.
  - exact sample_pool_sorted.
  - reflexivity.
  - exists vpool'. split; [reflexivity|]. split; [exact Hpool|]. split; [exact Hwf|exact Hsorted].
Defined.

Lemma vos_co_destroy_success_witness :
  exists st' vpool',
    vos_co_destroy (env := sample_env 0 0) sample_state 7%N uuid_a = Returned (0, st') /\
    vos_hdl2pool st' 7%N = Some vpool' /\
    btr_find uuid_a (vp_cont_root vpool') = None.
Proof.
  destruct (vos_co_destroy_success (env := sample_env 0 0) sample_state 7%N uuid_a
              sample_pool (mk_rec 1%N uuid_a) (mk_container uuid_a 0 2%N)
              (mk_oi 1) (mk_oi 0))
    as (st' & vpool' & Hrun & Hpool & _ & Hfind & _).
  - reflexivity.
  - reflexivity.
  - reflexivity.
  - simpl. unfold UMMID_NULL. lia.
  - reflexivity.
  - simpl. unfold UMMID_NULL. lia.
  - reflexivity.
  - reflexivity.
  - exact sample_pool_sorted.
  - exists st', vpool'. split; [exact Hrun|]. split; [exact Hpool|exact Hfind].
Defined.


Lemma vos_co_destroy_atomic_witness :
  exists st',
    vos_co_destroy (env := sample_env 0 0) sample_state_open 7%N uuid_a =
      Returned (- 2012, st') /\
    same_durable sample_state_open st' /\
    st_hhash st' = st_hhash sample_state_open.
Proof.
  eexists. split; [reflexivity|].
  edestruct (vos_co_destroy_atomic (env := sample_env 0 0) sample_state_open 7%N uuid_a
               (- 2012)) as (Hdur & Hhh & _).
  - reflexivity.
  - lia.
  - split; [exact Hdur|exact Hhh].
Defined.

Lemma vos_co_create_destroy_round_trip_witness :
  exists st1 st2,
    vos_co_create (env := sample_env 0 0) sample_state 7%N uuid_b = Returned (0, st1) /\
    vos_co_destroy (env := sample_env 0 0) st1 7%N uuid_b = Returned (0, st2) /\
    same_durable sample_state st2.
Proof.
  apply (vos_co_create_destroy_round_trip (env := sample_env 0 0) sample_state 7%N uuid_b
           sample_pool 2 (mk_oi 1) (mk_oi 0)); reflexivity.
Defined.

Lemma vos_co_open_first_witness :
  exists st' co_hdl,
    vos_co_open (env := sample_env 0 0) sample_state 7%N uuid_a =
      Returned (0, st', Some uuid_a) /\
    vos_hdl2co st' (Some uuid_a) = Some co_hdl /\
    hdl_vc_ref co_hdl = 1%nat.
Proof.
  destruct (vos_co_open_first (env := sample_env 0 0) sample_state 7%N uuid_a
              sample_pool (mk_rec 1%N uuid_a) (mk_container uuid_a 0 2%N) (mk_oi 1) 1)
    as (st' & co_hdl & Hrun & Hhdl & Href & _).
  - reflexivity.
  - reflexivity.
  - reflexivity.
  - reflexivity.
  - reflexivity.
  - reflexivity.
  - reflexivity.
  - exists st', co_hdl. split; [exact Hrun|]. split; [exact Hhdl|exact Href].
Defined.

Lemma vos_co_open_footprint_witness :
  exists st',
    vos_co_open (env := sample_env 0 0) sample_state 7%N uuid_b =
      Returned (- 2005, st', None) /\
    same_durable sample_state st' /\
    st_hhash st' = st_hhash sample_state /\
    st_dram st' = st_dram sample_state.
Proof.
  eexists. split; [reflexivity|].
  edestruct (vos_co_open_footprint (env := sample_env 0 0) sample_state 7%N uuid_b
               (- 2005)) as (Hdur & Hfail & _).
  - reflexivity.
  - destruct Hfail as (_ & Hhh & Hdram); [lia|].
    split; [exact Hdur|]. split; [exact Hhh|exact Hdram].
Defined.

Lemma vos_co_open_error_codes_witness :
  vos_co_open (env := sample_env 0 0) sample_state 9%N uuid_a =
    Returned (- 2003, sample_state, None) /\
  exists st',
    vos_co_open (env := sample_env 0 0) sample_state 7%N uuid_b =
      Returned (- 2005, st', None).
Proof.
  split.
  - apply (proj1 (vos_co_open_error_codes (env := sample_env 0 0) sample_state 9%N uuid_a)).
    reflexivity.
  - apply (proj1 (proj2 (vos_co_open_error_codes (env := sample_env 0 0) sample_state
                           7%N uuid_b) sample_pool eq_refl eq_refl)).
    reflexivity.
Defined.

Lemma vos_co_open_twice_witness :
  exists st1 st2 coh,
    vos_co_open (env := sample_env 0 0) sample_state 7%N uuid_a = Returned (0, st1, coh) /\
    vos_co_open (env := sample_env 0 0) st1 7%N uuid_a = Returned (0, st2, coh) /\
    vos_hdl2co st2 coh = Some (mk_hdl uuid_a 7%N 1%N 2%N 2).
Proof.
  destruct (vos_co_open_twice (env := sample_env 0 0) sample_state 7%N uuid_a
              sample_pool (mk_rec 1%N uuid_a) (mk_container uuid_a 0 2%N) (mk_oi 1) 1)
    as (st1 & st2 & coh & H1 & H2 & Hh & _).
  - reflexivity.
  - reflexivity.
  - reflexivity.
  - reflexivity.
  - reflexivity.
  - reflexivity.
  - reflexivity.
  - exists st1, st2, coh. split; [exact H1|]. split; [exact H2|exact Hh].
Defined.

Lemma vos_co_open_blocks_destroy_witness :
  exists st1 coh,
    vos_co_open (env := sample_env 0 0) sample_state 7%N uuid_a = Returned (0, st1, coh) /\
    vos_co_destroy (env := sample_env 0 0) st1 7%N uuid_a = Returned (- 2012, st1).
Proof.
  apply (vos_co_open_blocks_destroy (env := sample_env 0 0) sample_state 7%N uuid_a
           sample_pool (mk_rec 1%N uuid_a) (mk_container uuid_a 0 2%N) (mk_oi 1) 1);
    reflexivity.
Defined.

Lemma vos_co_create_open_query_witness :
  exists st1 st2 coh,
    vos_co_create (env := sample_env 0 0) sample_state 7%N uuid_b = Returned (0, st1) /\
    vos_co_open (env := sample_env 0 0) st1 7%N uuid_b = Returned (0, st2, coh) /\
    vos_co_query (env := sample_env 0 0) st2 coh = Returned (0, Some 0).
Proof.
  apply (vos_co_create_open_query (env := sample_env 0 0) sample_state 7%N uuid_b
           sample_pool 2 1 (mk_oi 1)); reflexivity.
Defined.

Lemma vos_co_destroy_then_open_witness :
  exists st1 st2,
    vos_co_destroy (env := sample_env 0 0) sample_state 7%N uuid_a = Returned (0, st1) /\
    vos_co_open (env := sample_env 0 0) st1 7%N uuid_a = Returned (- 2005, st2, None).
Proof.
  destruct (vos_co_destroy_then_open (env := sample_env 0 0) sample_state 7%N uuid_a
              sample_pool (mk_rec 1%N uuid_a) (mk_container uuid_a 0 2%N)
              (mk_oi 1) (mk_oi 0))
    as (st1 & st2 & H1 & H2 & _).
  - reflexivity.
  - reflexivity.
  - reflexivity.
  - simpl. unfold UMMID_NULL. lia.
  - reflexivity.
  - simpl. unfold UMMID_NULL. lia.
  - reflexivity.
  - reflexivity.
  - exists st1, st2. split; [exact H1|exact H2].
Defined.

Lemma vos_co_iter_fetch_entry_witness :
  vos_co_iter_fetch (env := sample_env 0 0) sample_state (sample_iter (CursorAt 0))
    (mk_entry uuid_b) None = Returned (0, mk_entry uuid_a, Some uuid_a).
Proof.
  apply (vos_co_iter_fetch_entry (env := sample_env 0 0) sample_state
           (sample_iter (CursorAt 0)) sample_pool 0 (mk_rec 1%N uuid_a)
           (mk_entry uuid_b) None); try reflexivity.
  exact sample_pool_wf.
Defined.

Lemma vos_co_iter_resume_witness :
  vos_co_iter_probe (env := sample_env 0 0) sample_state (sample_iter CursorNone)
    (Some uuid_a) = Returned (0, sample_iter (CursorAt 0)) /\
  vos_co_iter_next (env := sample_env 0 0) sample_state (sample_iter (CursorAt 0)) =
    Returned (0, sample_iter (CursorAt 1)).
Proof.
  destruct (vos_co_iter_resume (env := sample_env 0 0) sample_state
              (sample_iter CursorNone) sample_pool CursorNone 0 (mk_rec 1%N uuid_a)
              (mk_entry uuid_b) None eq_refl eq_refl eq_refl sample_pool_wf
              sample_pool_sorted eq_refl)
    as (a & Hfetch & Hprobe & Hnext & _).
  assert (Ha : a = uuid_a).
  { assert (H := Hfetch). vm_compute in H. by injection H as <-. }
  subst a. split; [exact Hprobe|].
  apply (proj1 (Hnext (mk_rec 3%N uuid_c) eq_refl)).
Defined.

Lemma vos_co_iter_delete_entry_witness :
  exists st' co_iter' vpool',
    vos_co_iter_delete (env := sample_env 0 0) sample_state (sample_iter (CursorAt 0)) =
      Returned (0, st', co_iter') /\
    st_pools st' !! 7%N = Some vpool' /\
    umm_log (vp_umm vpool') = [EvTxBegin; EvFree 2%N; EvFree 1%N; EvTxCommit] /\
    btr_find uuid_a (vp_cont_root vpool') = None.
Proof.
  destruct (vos_co_iter_delete_entry (env := sample_env 0 0) sample_state
              (sample_iter (CursorAt 0)) sample_pool 0 (mk_rec 1%N uuid_a)
              (mk_container uuid_a 0 2%N))
    as (st' & it' & vpool' & Hrun & Hpool & Hlog & Hfind & _).
  - reflexivity.
  - reflexivity.
  - reflexivity.
  - exact sample_pool_sorted.
  - reflexivity.
  - simpl. unfold UMMID_NULL. lia.
  - reflexivity.
  - simpl. unfold UMMID_NULL. lia.
  - exists st', it', vpool'. split; [exact Hrun|]. split; [exact Hpool|].
    split; [exact Hlog|exact Hfind].
Defined.
